(** * ENR toplist crawler: a shallow embedding of [controllers/crawler.js]

    The crawler drives one browser tab.  Everything the tab answers (the
    outcome of a navigation, of a [waitForSelector], of a [page.evaluate])
    is an input of the model; everything the script computes from those
    answers (marker tests, header resolution, firm splitting, link
    deduplication, the polling and pagination loops, the try/catch
    structure) is translated function by function.

    A JavaScript string is the list of its UTF-16 code units.  White space
    is the set [trim()] strips and [\s] matches.  The case mappings
    [toUpperCase] and [toLowerCase] are those of the runtime: the crawler is
    stated for any two such functions, and nothing is assumed about them. *)

From Stdlib Require Import ZArith NArith Ascii String List Bool Lia.
From stdpp Require Import base gmap strings list.
Import ListNotations.

Local Open Scope string_scope.
Local Open Scope list_scope.

(** ** JavaScript strings and the string methods used by the crawler *)

Module JsString.

Abbreviation jsstring := (list N).

(** The code unit of an ASCII character, and the string of an ASCII
    literal of the source. *)
Definition ch (c : ascii) : N := N_of_ascii c.

Definition js (s : string) : jsstring := List.map N_of_ascii (list_ascii_of_string s).

(** WhiteSpace and LineTerminator: U+0009 to U+000D, U+0020, U+00A0, U+1680,
    U+2000 to U+200A, U+2028, U+2029, U+202F, U+205F, U+3000, U+FEFF. *)
Definition isSpace (c : N) : bool :=
  ((9 <=? c) && (c <=? 13))%N
  || (c =? 32)%N || (c =? 160)%N || (c =? 5760)%N
  || ((8192 <=? c) && (c <=? 8202))%N
  || (c =? 8232)%N || (c =? 8233)%N || (c =? 8239)%N || (c =? 8287)%N
  || (c =? 12288)%N || (c =? 65279)%N.

(** [s === t] *)
Fixpoint strictEq (s t : jsstring) : bool :=
  match s, t with
  | [], [] => true
  | a :: s', b :: t' => (a =? b)%N && strictEq s' t'
  | _, _ => false
  end.

(** [s.replace(/\s+/g, '')] *)
Fixpoint removeSpaces (s : jsstring) : jsstring :=
  match s with
  | [] => []
  | c :: s' => if isSpace c then removeSpaces s' else c :: removeSpaces s'
  end.

Fixpoint trimStart (s : jsstring) : jsstring :=
  match s with
  | [] => []
  | c :: s' => if isSpace c then trimStart s' else s
  end.

Fixpoint trimEnd (s : jsstring) : jsstring :=
  match s with
  | [] => []
  | c :: s' =>
      let t := trimEnd s' in
      if isSpace c && strictEq t [] then [] else c :: t
  end.

Definition trim (s : jsstring) : jsstring := trimEnd (trimStart s).

Fixpoint startsWith (s pre : jsstring) : bool :=
  match pre, s with
  | [], _ => true
  | _ :: _, [] => false
  | a :: pre', b :: s' => (a =? b)%N && startsWith s' pre'
  end.

(** [s.includes(sub)] *)
Fixpoint includes (s sub : jsstring) : bool :=
  startsWith s sub
  || match s with
     | [] => false
     | _ :: s' => includes s' sub
     end.

(** [s.endsWith(suf)] *)
Fixpoint endsWith (s suf : jsstring) : bool :=
  strictEq s suf
  || match s with
     | [] => false
     | _ :: s' => endsWith s' suf
     end.

(** [s.split(sep)] for a one-unit separator. *)
Fixpoint split (sep : N) (s : jsstring) : list jsstring :=
  match s with
  | [] => [[]]
  | c :: s' =>
      if (c =? sep)%N then [] :: split sep s'
      else match split sep s' with
           | [] => [[c]]
           | p :: ps => (c :: p) :: ps
           end
  end.

(** [parts.join(sep)] *)
Fixpoint join (sep : jsstring) (parts : list jsstring) : jsstring :=
  match parts with
  | [] => []
  | [p] => p
  | p :: ps => p ++ sep ++ join sep ps
  end.

(** [parts.slice(1)] *)
Definition slice1 {A} (l : list A) : list A := List.tl l.

(** What [toUpperCase] and [toLowerCase] do to ASCII text: the letters a-z
    and A-Z are mapped, every other unit is kept.  The sample runs use
    them. *)
Definition asciiUpper (s : jsstring) : jsstring :=
  List.map (fun c => if ((97 <=? c) && (c <=? 122))%N then (c - 32)%N else c) s.

Definition asciiLower (s : jsstring) : jsstring :=
  List.map (fun c => if ((65 <=? c) && (c <=? 90))%N then (c + 32)%N else c) s.

End JsString.

Import JsString.

Arguments ch : simpl never.
Arguments js : simpl never.

(** ** Promises that may reject *)

Inductive Exc (A : Type) : Type :=
| Ok (a : A)
| Throw (msg : string).
Arguments Ok {A} a.
Arguments Throw {A} msg.

Definition bindExc {A B} (m : Exc A) (k : A -> Exc B) : Exc B :=
  match m with
  | Ok a => k a
  | Throw e => Throw e
  end.

(** [try { body } catch (error) { handler }], and [p.catch(handler)] on a
    promise. *)
Definition tryCatch {A} (body : Exc A) (handler : string -> Exc A) : Exc A :=
  match body with
  | Ok a => Ok a
  | Throw e => handler e
  end.

Notation "'await' x := m 'in' k" := (bindExc m (fun x => k))
  (at level 10, x name, m at level 100, k at level 200,
   format "'[v' 'await'  x  :=  m  'in' '/' k ']'").

(** ** What the tab shows *)

(** The part of a document the challenge test reads. *)
Record Snapshot := {
  hasBody : bool;
  title : jsstring;
  innerText : jsstring;
  hasChallengeForm : bool;   (* querySelector('#challenge-form') !== null *)
  hasRayId : bool;           (* querySelector('.ray_id') !== null *)
  hasCaptchaKind : bool      (* querySelector('[name="cf_captcha_kind"]') !== null *)
}.

(** An [<a>] element: its resolved [href] and its [textContent]. *)
Record Anchor := {
  a_href : jsstring;
  a_textContent : jsstring
}.

Record Th := {
  th_textContent : jsstring;
  th_dataLabel : option jsstring   (* getAttribute('data-label') *)
}.

Record Table := {
  t_id : jsstring;
  t_headerCells : list Th;            (* querySelectorAll('thead th') *)
  t_dataRows : list (list jsstring)   (* 'tbody tr', each as the textContent of its 'td's *)
}.

(** A loaded page: what each inspection made by the crawler answers. *)
Record Page := {
  bodyWait : Exc unit;                         (* waitForSelector('body') *)
  challengeCheck : Exc Snapshot;               (* the first evaluate of the gate *)
  challengePolls : nat -> Exc Snapshot;        (* the evaluate of polling round k *)
  paginationDoc : Exc (option (list Anchor));  (* table#paginationTable and its a[href] *)
  tableWait : Exc unit;                        (* waitForSelector('table') *)
  tablesDoc : Exc (list Table);                (* querySelectorAll('table') *)
  linksDoc : Exc (string -> list Anchor)       (* querySelectorAll(selector) *)
}.
Section Crawler.

(** The runtime's case mappings. *)
Variable toUpperCase toLowerCase : jsstring -> jsstring.

(** ** waitForCloudflareChallenge *)

Definition textMarkers (s : Snapshot) : bool :=
  let title := toLowerCase (title s) in
  let bodyText := toLowerCase (innerText s) in
  includes title (js "just a moment")
  || includes title (js "verify")
  || includes bodyText (js "verify you are human")
  || includes bodyText (js "checking your browser").

Definition isChallenge (s : Snapshot) : bool :=
  if negb (hasBody s) then false
  else textMarkers s || hasChallengeForm s || hasRayId s || hasCaptchaKind s.

Definition stillOnChallenge (s : Snapshot) : bool :=
  if negb (hasBody s) then true else textMarkers s.

Definition maxAttempts : nat := 60.

(** The [while (attempts < maxAttempts)] loop; [remaining] is
    [maxAttempts - attempts]. *)
Fixpoint pollChallenge (polls : nat -> Exc Snapshot) (attempts remaining : nat) : Exc bool :=
  match remaining with
  | O => Ok false
  | S remaining' =>
      await still := tryCatch (await s := polls attempts in Ok (stillOnChallenge s))
                              (fun _ => Ok true) in
      if negb still then Ok true
      else pollChallenge polls (S attempts) remaining'
  end.

Definition waitForCloudflareChallenge (page : Page) : Exc bool :=
  tryCatch
    (await _ := tryCatch (bodyWait page) (fun _ => Ok tt) in
     await s := challengeCheck page in
     if isChallenge s then pollChallenge (challengePolls page) 0 maxAttempts
     else Ok true)
    (fun _ => Ok false).

(** ** getPaginationLinks *)

Record LinkRef := {
  href : jsstring;
  text : jsstring
}.

Definition nonEmpty (s : jsstring) : bool := negb (strictEq s []).

(** The [forEach] that pushes [{href, text}] for every anchor whose
    resolved URL is non-empty and contains "toplists". *)
Fixpoint pushToplistAnchors (links : list LinkRef) (anchors : list Anchor) : list LinkRef :=
  match anchors with
  | [] => links
  | a :: rest =>
      if nonEmpty (a_href a) && includes (a_href a) (js "toplists")
      then pushToplistAnchors
             (links ++ [{| href := a_href a; text := trim (a_textContent a) |}]) rest
      else pushToplistAnchors links rest
  end.

Definition getPaginationLinks (page : Page) : Exc (list LinkRef) :=
  await paginationTable := paginationDoc page in
  match paginationTable with
  | None => Ok []
  | Some anchors => Ok (pushToplistAnchors [] anchors)
  end.

(** ** extractTableData *)

Definition headerOf (th : Th) : jsstring :=
  let headerText := trim (th_textContent th) in
  match th_dataLabel th with
  | Some dataLabel =>
      if nonEmpty dataLabel && nonEmpty (trim dataLabel) then trim dataLabel
      else headerText
  | None => headerText
  end.

Record Indices := {
  rank2025Index : Z;
  rank2024Index : Z;
  firmIndex : Z
}.

Definition noIndices : Indices :=
  {| rank2025Index := -1; rank2024Index := -1; firmIndex := -1 |}.

Definition normalize (h : jsstring) : jsstring := removeSpaces (toUpperCase h).

(** One call of the [headers.forEach((h, idx) => ..)] callback. *)
Definition scanHeader (st : Indices) (h : jsstring) (idx : Z) : Indices :=
  let normalized := normalize h in
  let st1 :=
    if includes normalized (js "2025") && includes normalized (js "RANK") then
      {| rank2025Index := idx;
         rank2024Index := rank2024Index st;
         firmIndex := firmIndex st |}
    else if (includes normalized (js "2024") || includes normalized (js "2023"))
            && includes normalized (js "RANK") then
      if (rank2024Index st =? -1)%Z then
        {| rank2025Index := rank2025Index st;
           rank2024Index := idx;
           firmIndex := firmIndex st |}
      else st
    else st in
  if strictEq normalized (js "FIRM") || strictEq normalized (js "FIRMS") then
    {| rank2025Index := rank2025Index st1;
       rank2024Index := rank2024Index st1;
       firmIndex := idx |}
  else st1.

Fixpoint scanHeaders (st : Indices) (headers : list jsstring) (idx : Z) : Indices :=
  match headers with
  | [] => st
  | h :: rest => scanHeaders (scanHeader st h idx) rest (idx + 1)
  end.

Definition resolveColumns (headers : list jsstring) : Indices :=
  scanHeaders noIndices headers 0.

(** [cells[i]]: [undefined] (here [None]) out of range, also at [-1]. *)
Definition cellAt (cells : list jsstring) (i : Z) : option jsstring :=
  if (i <? 0)%Z then None else cells !! Z.to_nat i.

(** [firmText] to [(companyName, location)]. *)
Definition parseFirm (firmText : jsstring) : jsstring * jsstring :=
  if includes firmText (js ",") then
    let parts := List.map trim (split (ch ",") firmText) in
    let companyName := List.hd [] parts in
    let location :=
      if (1 <? List.length parts)%nat then join (js ", ") (slice1 parts) else [] in
    (companyName, location)
  else (firmText, []).

(** A row object, keyed by property name. *)
Abbreviation Row := (gmap string jsstring).

Definition buildRow (ix : Indices) (cells : list jsstring) (firmCell : jsstring) : Row :=
  let firmText := trim firmCell in
  let '(companyName, location) := parseFirm firmText in
  let rowData : Row := <["Location" := location]> (<["Company Name" := companyName]> ∅) in
  let rowData :=
    if negb (rank2025Index ix =? -1)%Z then
      match cellAt cells (rank2025Index ix) with
      | Some c => <["RANK 2025" := trim c]> rowData
      | None => rowData
      end
    else rowData in
  let rowData :=
    if negb (rank2024Index ix =? -1)%Z then
      match cellAt cells (rank2024Index ix) with
      | Some c => <["RANK 2024" := trim c]> rowData
      | None => rowData
      end
    else rowData in
  rowData.

(** One call of the [dataRows.forEach(tr => ..)] callback: the rows
    pushed so far, extended or left alone. *)
Definition scanRow (ix : Indices) (rows : list Row) (cells : list jsstring) : list Row :=
  if (List.length cells =? 0)%nat then rows
  else match cellAt cells (firmIndex ix) with
       | None => rows
       | Some firmCell => rows ++ [buildRow ix cells firmCell]
       end.

Record TableResult := {
  tableIndex : nat;
  tr_headers : list string;
  tr_data : list Row;
  tr_rowCount : nat
}.

Definition canonicalHeaders : list string :=
  ["RANK 2025"; "RANK 2024"; "Company Name"; "Location"].

(** One call of the [tables.forEach((table, tableIndex) => ..)] callback:
    the results pushed so far, extended or left alone. *)
Definition scanTable (tablesResults : list TableResult) (table : Table) (tableIndex : nat)
  : list TableResult :=
  let headers := List.map headerOf (t_headerCells table) in
  if (List.length headers =? 0)%nat then tablesResults
  else
    let ix := resolveColumns headers in
    if (firmIndex ix =? -1)%Z then tablesResults
    else
      let rows := List.fold_left (scanRow ix) (t_dataRows table) [] in
      if (0 <? List.length rows)%nat then
        tablesResults ++ [{| tableIndex := tableIndex;
                             tr_headers := canonicalHeaders;
                             tr_data := rows;
                             tr_rowCount := List.length rows |}]
      else tablesResults.

Fixpoint scanTables (tablesResults : list TableResult) (tables : list Table) (tableIndex : nat)
  : list TableResult :=
  match tables with
  | [] => tablesResults
  | table :: rest => scanTables (scanTable tablesResults table tableIndex) rest (S tableIndex)
  end.

(** The function passed to [page.evaluate] in [extractTableData]. *)
Definition allTablesDataOf (document : list Table) : list TableResult :=
  let tables :=
    List.filter (fun table => negb (strictEq (t_id table) (js "paginationTable"))) document in
  scanTables [] tables 0.

Record PageData := {
  pd_headers : list string;
  pd_data : list Row;
  tablesFound : nat
}.

Definition extractTableData (page : Page) : Exc (option PageData) :=
  tryCatch
    (await _ := tryCatch (tableWait page) (fun _ => Ok tt) in
     await document := tablesDoc page in
     let allTablesData := allTablesDataOf document in
     if (0 <? List.length allTablesData)%nat then
       let combinedData := List.concat (List.map tr_data allTablesData) in
       Ok (Some {| pd_headers := canonicalHeaders;
                   pd_data := combinedData;
                   tablesFound := List.length allTablesData |})
     else Ok None)
    (fun _ => Ok None).

(** ** crawlToplistPage *)

(** [page.goto(url)]: rejects, or leaves the tab on the page loaded. *)
Definition Site := jsstring -> Exc Page.

Record ToplistResult := {
  listName : jsstring;
  url : jsstring;
  headers : list string;
  data : list Row;
  rowCount : nat;
  paginatedPages : nat
}.

(** [allData.push(...pageData.data)] under [if (pageData && pageData.data)]. *)
Definition pushPageData (allData : list Row) (pageData : option PageData) : list Row :=
  match pageData with
  | Some d => allData ++ pd_data d
  | None => allData
  end.

(** The body of the [for] loop over [paginationLinks], with its own
    [try]/[catch]. *)
Definition crawlPaginationPage (site : Site) (allData : list Row) (paginationLink : LinkRef)
  : Exc (list Row) :=
  tryCatch
    (await page := site (href paginationLink) in
     await _ := waitForCloudflareChallenge page in
     await pageData := extractTableData page in
     Ok (pushPageData allData pageData))
    (fun _ => Ok allData).

Fixpoint crawlPaginationPages (site : Site) (allData : list Row) (links : list LinkRef)
  : Exc (list Row) :=
  match links with
  | [] => Ok allData
  | paginationLink :: rest =>
      await allData' := crawlPaginationPage site allData paginationLink in
      crawlPaginationPages site allData' rest
  end.

Definition crawlToplistPage (site : Site) (url listName : jsstring)
  : Exc (option ToplistResult) :=
  tryCatch
    (await page := site url in
     await _ := waitForCloudflareChallenge page in
     await paginationLinks := getPaginationLinks page in
     await mainPageData := extractTableData page in
     let allData := pushPageData [] mainPageData in
     await allData :=
       (if (0 <? List.length paginationLinks)%nat
        then crawlPaginationPages site allData paginationLinks
        else Ok allData) in
     if (0 <? List.length allData)%nat then
       Ok (Some {| listName := listName;
                   url := url;
                   headers := canonicalHeaders;
                   data := allData;
                   rowCount := List.length allData;
                   paginatedPages :=
                     if (0 <? List.length paginationLinks)%nat
                     then List.length paginationLinks + 1 else 1 |})
     else Ok None)
    (fun _ => Ok None).

(** ** getToplistLinks *)

(** The double-quote character of the attribute selectors. *)
Definition dq : string := String (ascii_of_nat 34) EmptyString.

Definition selectors : list string :=
  [ "div.linkArrow a";
    ".linkArrow a";
    "a[href*=" +:+ dq +:+ "toplists" +:+ dq +:+ "]";
    "a[href*=" +:+ dq +:+ "rankings" +:+ dq +:+ "]";
    "a.link-arrow";
    ".link-arrow a";
    "div[class*=" +:+ dq +:+ "arrow" +:+ dq +:+ "] a" ].

(** The [for (const selector of selectors)] loop, [break] included. *)
Fixpoint trySelectors (querySelectorAll : string -> list Anchor)
    (linkArray : list LinkRef) (sels : list string) : list LinkRef :=
  match sels with
  | [] => linkArray
  | selector :: rest =>
      let elements := querySelectorAll selector in
      if (0 <? List.length elements)%nat then
        let linkArray := pushToplistAnchors linkArray elements in
        if (0 <? List.length linkArray)%nat then linkArray
        else trySelectors querySelectorAll linkArray rest
      else trySelectors querySelectorAll linkArray rest
  end.

(** The fallback [forEach] over every anchor of the document. *)
Fixpoint pushFallbackAnchors (links : list LinkRef) (anchors : list Anchor) : list LinkRef :=
  match anchors with
  | [] => links
  | a :: rest =>
      if nonEmpty (a_href a) && includes (a_href a) (js "toplists")
         && negb (endsWith (a_href a) (js "/toplists"))
      then pushFallbackAnchors
             (links ++ [{| href := a_href a; text := trim (a_textContent a) |}]) rest
      else pushFallbackAnchors links rest
  end.

(** [linkArray.forEach(link => ..)] with [seenUrls] and [uniqueLinks]. *)
Fixpoint removeDuplicates (seenUrls : gset jsstring) (uniqueLinks linkArray : list LinkRef)
  : list LinkRef :=
  match linkArray with
  | [] => uniqueLinks
  | link :: rest =>
      if bool_decide (href link ∈ seenUrls) then removeDuplicates seenUrls uniqueLinks rest
      else removeDuplicates ({[href link]} ∪ seenUrls) (uniqueLinks ++ [link]) rest
  end.

Definition collectLinks (querySelectorAll : string -> list Anchor) : list LinkRef :=
  let linkArray := trySelectors querySelectorAll [] selectors in
  if (List.length linkArray =? 0)%nat
  then pushFallbackAnchors linkArray (querySelectorAll "a")
  else linkArray.

(** The function passed to [page.evaluate] in [getToplistLinks]. *)
Definition toplistLinksOf (querySelectorAll : string -> list Anchor) : list LinkRef :=
  removeDuplicates ∅ [] (collectLinks querySelectorAll).

Definition getToplistLinks (page : Page) : Exc (list LinkRef) :=
  await querySelectorAll := linksDoc page in
  Ok (toplistLinksOf querySelectorAll).

(** ** crawlENRToplists *)

(** The [for] loop over [toplistLinks]. *)
Fixpoint crawlToplistLinks (site : Site) (allResults : list ToplistResult)
    (toplistLinks : list LinkRef) : Exc (list ToplistResult) :=
  match toplistLinks with
  | [] => Ok allResults
  | link :: rest =>
      await result := crawlToplistPage site (href link) (text link) in
      crawlToplistLinks site
        (match result with
         | Some r => allResults ++ [r]
         | None => allResults
         end)
        rest
  end.

(** The crawl proper: steps 1 to 4 and the [return allResults], inside the
    [try] whose [catch] rethrows.  [homeBodyWait] is the outcome of
    [waitForSelector('body')] on the home page.  Launching the browser, the
    cookies, the screenshots and the files written in between are not part
    of this model; they are taken to succeed. *)
Definition crawlENRToplists (site : Site) (homeBodyWait : Exc unit)
  : Exc (list ToplistResult) :=
  tryCatch
    (await home := site (js "https://www.enr.com/") in
     await _ := homeBodyWait in
     await challengePassed := waitForCloudflareChallenge home in
     if negb challengePassed then Throw "Failed to pass Cloudflare challenge"
     else
       await index := site (js "https://www.enr.com/toplists") in
       await _ := waitForCloudflareChallenge index in
       await toplistLinks := getToplistLinks index in
       await allResults := crawlToplistLinks site [] toplistLinks in
       Ok allResults)
    (fun error => Throw error).

(** ** The names of the files written *)

(** [/[^a-z0-9]/i] fails on these characters. *)
Definition isAlnum (c : N) : bool :=
  ((48 <=? c) && (c <=? 57))%N
  || ((65 <=? c) && (c <=? 90))%N
  || ((97 <=? c) && (c <=? 122))%N.

(** [s.replace(/[^a-z0-9]/gi, '-')] *)
Definition replaceNonAlnum (s : jsstring) : jsstring :=
  List.map (fun c => if isAlnum c then c else ch "-") s.

(** [s.replace(/-+/g, '-')]: a dash followed by a dash is dropped. *)
Fixpoint collapseDashes (s : jsstring) : jsstring :=
  match s with
  | [] => []
  | c :: s' =>
      if (c =? ch "-")%N && startsWith s' (js "-") then collapseDashes s'
      else c :: collapseDashes s'
  end.

Definition dropLeadingDash (s : jsstring) : jsstring :=
  match s with
  | [] => []
  | c :: s' => if (c =? ch "-")%N then s' else s
  end.

Fixpoint dropTrailingDash (s : jsstring) : jsstring :=
  match s with
  | [] => []
  | c :: s' =>
      if (c =? ch "-")%N && strictEq s' [] then []
      else c :: dropTrailingDash s'
  end.

(** [s.replace(/^-|-$/g, '')] *)
Definition stripEdgeDashes (s : jsstring) : jsstring :=
  dropTrailingDash (dropLeadingDash s).

Definition sanitize (listName : jsstring) : jsstring :=
  stripEdgeDashes (collapseDashes (replaceNonAlnum listName)).

(** [urlParts[urlParts.length - 1]] of [url.split('/')]. *)
Definition lastPart (url : jsstring) : jsstring :=
  List.last (split (ch "/") url) [].

(** The [filename] under which a result is written. *)
Definition fileNameOf (result : ToplistResult) : jsstring :=
  let lastPart := lastPart (url result) in
  if nonEmpty lastPart && negb (strictEq lastPart (js "toplists")) then lastPart
  else sanitize (listName result).

Definition filePathOf (result : ToplistResult) : jsstring :=
  js "./enr-data/" ++ fileNameOf result ++ js ".json".

Record SummaryFile := {
  sf_filename : jsstring;
  sf_listName : jsstring;
  sf_url : jsstring;
  sf_rowCount : nat;
  sf_paginatedPages : nat
}.

(** [summaryData], without its [crawlDate]. *)
Record SummaryData := {
  totalLists : nat;
  totalRows : nat;
  files : list SummaryFile
}.

Definition summaryFileOf (r : ToplistResult) : SummaryFile :=
  let filename :=
    if nonEmpty (lastPart (url r)) then lastPart (url r)
    else replaceNonAlnum (listName r) in
  {| sf_filename := filename ++ js ".json";
     sf_listName := listName r;
     sf_url := url r;
     sf_rowCount := rowCount r;
     sf_paginatedPages := paginatedPages r |}.

Definition summaryDataOf (allResults : list ToplistResult) : SummaryData :=
  {| totalLists := List.length allResults;
     totalRows := List.fold_left (fun sum r => (sum + rowCount r)%nat) allResults 0%nat;
     files := List.map summaryFileOf allResults |}.

(** * Reference definitions: the specification's wording, for comparison
      with the code *)

(** The substring before the first comma (the whole text when there is
    none). *)
Fixpoint beforeFirstComma (s : jsstring) : jsstring :=
  match s with
  | [] => []
  | c :: s' => if (c =? ch ",")%N then [] else c :: beforeFirstComma s'
  end.

(** Everything after the first comma (nothing when there is none). *)
Fixpoint afterFirstComma (s : jsstring) : jsstring :=
  match s with
  | [] => []
  | c :: s' => if (c =? ch ",")%N then s' else afterFirstComma s'
  end.

(** The rank-2025 pattern: the normalized header contains "2025" and "RANK". *)
Definition matchesRank2025 (h : jsstring) : bool :=
  includes (normalize h) (js "2025") && includes (normalize h) (js "RANK").

(** The rank-2024 pattern: the normalized header contains "RANK" and one
    of "2024", "2023". *)
Definition matchesRank2024 (h : jsstring) : bool :=
  (includes (normalize h) (js "2024") || includes (normalize h) (js "2023"))
  && includes (normalize h) (js "RANK").

(** The firm rule: the normalized header is exactly "FIRM" or "FIRMS". *)
Definition matchesFirm (h : jsstring) : bool :=
  strictEq (normalize h) (js "FIRM") || strictEq (normalize h) (js "FIRMS").

(** A header that the code lets compete for the rank-2024 column: it
    matches the rank-2024 pattern and not the rank-2025 one. *)
Definition takesRank2024 (h : jsstring) : bool :=
  matchesRank2024 h && negb (matchesRank2025 h).

(** The canonical property names of a row. *)
Definition canonicalKeys : gset string :=
  {[ "RANK 2025"; "RANK 2024"; "Company Name"; "Location" ]}.

(** The links of the anchors that qualify: a non-empty resolved URL
    containing "toplists". *)
Definition qualifyingLinks (anchors : list Anchor) : list LinkRef :=
  List.map (fun a => {| href := a_href a; text := trim (a_textContent a) |})
           (List.filter (fun a => nonEmpty (a_href a) && includes (a_href a) (js "toplists"))
                        anchors).

(** The entries kept in first-encounter order: entry [i] stays exactly
    when no earlier entry has its [href]. *)
Definition firstOccurrences (linkArray : list LinkRef) : list LinkRef :=
  List.concat
    (imap (fun i link =>
             if bool_decide (href link ∈ List.map href (take i linkArray)) then []
             else [link])
          linkArray).

(** * Sample inputs *)

Definition clearSnapshot : Snapshot :=
  {| hasBody := true; title := js "ENR Top Lists"; innerText := js "Top 500 Design Firms";
     hasChallengeForm := false; hasRayId := false; hasCaptchaKind := false |}.

Definition challengeSnapshot : Snapshot :=
  {| hasBody := true; title := js "Just a moment..."; innerText := js "Checking your browser";
     hasChallengeForm := true; hasRayId := false; hasCaptchaKind := false |}.

(** The first inspection of the gate rejects. *)
Definition brokenCheckPage : Page :=
  {| bodyWait := Ok tt;
     challengeCheck := Throw "Execution context was destroyed";
     challengePolls := fun _ => Ok clearSnapshot;
     paginationDoc := Ok None;
     tableWait := Ok tt;
     tablesDoc := Ok [];
     linksDoc := Ok (fun _ => []) |}.

(** A challenge is shown; the first two polling inspections reject, the
    third sees the content. *)
Definition flakyPollPage : Page :=
  {| bodyWait := Ok tt;
     challengeCheck := Ok challengeSnapshot;
     challengePolls := fun k => if (k <? 2)%nat then Throw "Execution context was destroyed"
                                else Ok clearSnapshot;
     paginationDoc := Ok None;
     tableWait := Ok tt;
     tablesDoc := Ok [];
     linksDoc := Ok (fun _ => []) |}.

Definition firmsTable : Table :=
  {| t_id := js "";
     t_headerCells := [ {| th_textContent := js " RANK 2025 "; th_dataLabel := None |};
                        {| th_textContent := js "rank"; th_dataLabel := Some (js "Rank 2024") |};
                        {| th_textContent := js "Firm"; th_dataLabel := None |} ];
     t_dataRows := [ [js "1"; js "2"; js " AECOM, Dallas, Texas "]; []; [js "2"; js "1"; js "Jacobs"]; [js "3"] ] |}.

Definition paginationTable : Table :=
  {| t_id := js "paginationTable";
     t_headerCells := [ {| th_textContent := js "Firm"; th_dataLabel := None |} ];
     t_dataRows := [ [js "101-200"] ] |}.

(** The wait for a table times out, yet the document holds one by the
    time it is inspected. *)
Definition lateTablePage : Page :=
  {| bodyWait := Ok tt;
     challengeCheck := Ok clearSnapshot;
     challengePolls := fun _ => Ok clearSnapshot;
     paginationDoc := Ok None;
     tableWait := Throw "Waiting for selector `table` failed: 10000ms exceeded";
     tablesDoc := Ok [firmsTable];
     linksDoc := Ok (fun _ => []) |}.

(** The inspection of the tables rejects. *)
Definition brokenTablesPage : Page :=
  {| bodyWait := Ok tt;
     challengeCheck := Ok clearSnapshot;
     challengePolls := fun _ => Ok clearSnapshot;
     paginationDoc := Ok None;
     tableWait := Ok tt;
     tablesDoc := Throw "Execution context was destroyed";
     linksDoc := Ok (fun _ => []) |}.

Definition onlyPaginationPage : Page :=
  {| bodyWait := Ok tt;
     challengeCheck := Ok clearSnapshot;
     challengePolls := fun _ => Ok clearSnapshot;
     paginationDoc := Ok (Some []);
     tableWait := Ok tt;
     tablesDoc := Ok [paginationTable];
     linksDoc := Ok (fun _ => []) |}.

Definition duplicateRankHeaders : list jsstring :=
  [js "RANK 2025 (2024)"; js "Rank 2024"; js "rank 2023"; js "Rank  2025"; js "Firms"].

Definition noFirmTable : Table :=
  {| t_id := js "";
     t_headerCells := [ {| th_textContent := js "RANK 2025"; th_dataLabel := None |};
                        {| th_textContent := js "RANK 2024"; th_dataLabel := None |};
                        {| th_textContent := js "FIRM NAME"; th_dataLabel := None |} ];
     t_dataRows := [ [js "1"; js "2"; js "AECOM, Dallas, Texas"] ] |}.

(** An index page with one anchor inside a [div.linkArrow] that leads
    elsewhere, and three toplist anchors outside of it, two of them to the
    same list. *)
Definition rankingsAnchor : Anchor :=
  {| a_href := js "https://www.enr.com/rankings/2025"; a_textContent := js "Rankings" |}.

Definition toplistAnchors : list Anchor :=
  [ {| a_href := js "https://www.enr.com/toplists/2025-Top-500-Design-Firms";
       a_textContent := js " Top 500 Design Firms " |};
    {| a_href := js "https://www.enr.com/toplists/2025-Top-400-Contractors";
       a_textContent := js "Top 400 Contractors" |};
    {| a_href := js "https://www.enr.com/toplists/2025-Top-500-Design-Firms";
       a_textContent := js "Design Firms" |} ].

Definition mixedIndex (selector : string) : list Anchor :=
  if String.eqb selector "div.linkArrow a" then [rankingsAnchor]
  else if String.eqb selector ".linkArrow a" then [rankingsAnchor]
  else if String.eqb selector ("a[href*=" +:+ dq +:+ "toplists" +:+ dq +:+ "]")
  then toplistAnchors
  else if String.eqb selector ("a[href*=" +:+ dq +:+ "rankings" +:+ dq +:+ "]")
  then [rankingsAnchor]
  else if String.eqb selector "a" then rankingsAnchor :: toplistAnchors
  else [].

Definition mainListPage : Page :=
  {| bodyWait := Ok tt;
     challengeCheck := Ok clearSnapshot;
     challengePolls := fun _ => Ok clearSnapshot;
     paginationDoc :=
       Ok (Some [ {| a_href := js "https://www.enr.com/toplists/2025-Top-500-Design-Firms-2";
                     a_textContent := js " 101-200 " |};
                  {| a_href := js "https://www.enr.com/toplists/2025-Top-500-Design-Firms-3";
                     a_textContent := js " 201-300 " |} ]);
     tableWait := Ok tt;
     tablesDoc := Ok [paginationTable; firmsTable];
     linksDoc := Ok (fun _ => []) |}.

(** A toplist of three pages; navigating to the third one fails. *)
Definition threePageSite : Site :=
  fun url =>
    if strictEq url (js "https://www.enr.com/toplists/2025-Top-500-Design-Firms")
    then Ok mainListPage
    else if strictEq url (js "https://www.enr.com/toplists/2025-Top-500-Design-Firms-2")
    then Ok lateTablePage
    else Throw "net::ERR_CONNECTION_TIMED_OUT".

(** A toplist without pagination control. *)
Definition singlePageSite : Site :=
  fun url => Ok lateTablePage.

(** Polling round [k] sees the challenge gone: its inspection succeeds
    and finds a body without text markers. *)
Definition pollClear (polls : nat -> Exc Snapshot) (k : nat) : bool :=
  match polls k with
  | Ok s => negb (stillOnChallenge s)
  | Throw _ => false
  end.

(** A challenge that the fourth polling round sees gone. *)
Definition slowChallengePage : Page :=
  {| bodyWait := Throw "Waiting for selector `body` failed: 5000ms exceeded";
     challengeCheck := Ok challengeSnapshot;
     challengePolls := fun k => if (k <? 3)%nat then Ok challengeSnapshot else Ok clearSnapshot;
     paginationDoc := Ok None;
     tableWait := Ok tt;
     tablesDoc := Ok [];
     linksDoc := Ok (fun _ => []) |}.

(** The row a body row yields, if any: it needs at least one cell and a
    cell in the firm column. *)
Definition rowOf (ix : Indices) (cells : list jsstring) : option Row :=
  if (List.length cells =? 0)%nat then None
  else match cellAt cells (firmIndex ix) with
       | None => None
       | Some firmCell => Some (buildRow ix cells firmCell)
       end.

(** The rows a table yields, in body order; none without headers or
    without a firm column. *)
Definition tableRows (table : Table) : list Row :=
  let headers := List.map headerOf (t_headerCells table) in
  if (List.length headers =? 0)%nat then []
  else
    let ix := resolveColumns headers in
    if (firmIndex ix =? -1)%Z then [] else omap (rowOf ix) (t_dataRows table).

(** A row of an extraction and its origin: a body row of a table other
    than the pagination control, with a cell in the table's firm column,
    turned into a row with the table's columns. *)
Definition extractedFrom (table : Table) (cells : list jsstring) (firmCell : jsstring)
    (row : Row) : Prop :=
  let ix := resolveColumns (List.map headerOf (t_headerCells table)) in
  t_id table <> js "paginationTable"
  /\ In cells (t_dataRows table)
  /\ cellAt cells (firmIndex ix) = Some firmCell
  /\ row = buildRow ix cells firmCell.

Definition isDataTable (table : Table) : bool :=
  negb (strictEq (t_id table) (js "paginationTable")).

Definition hasRows (rows : list Row) : bool := (0 <? List.length rows)%nat.

(** A document with a table without rows, the pagination control and two
    data tables. *)
Definition busyDocument : list Table :=
  [ noFirmTable; paginationTable; firmsTable;
    {| t_id := js "second";
       t_headerCells := [ {| th_textContent := js "FIRMS"; th_dataLabel := None |};
                          {| th_textContent := js "Firm"; th_dataLabel := Some (js "  ") |};
                          {| th_textContent := js "x"; th_dataLabel := Some (js " Rank 2025 ") |} ];
       t_dataRows := [ [js "ignored"; js "Bechtel, Reston, Va."; js "3"] ] |} ].

Definition busyPage : Page :=
  {| bodyWait := Ok tt;
     challengeCheck := Ok clearSnapshot;
     challengePolls := fun _ => Ok clearSnapshot;
     paginationDoc := Ok None;
     tableWait := Ok tt;
     tablesDoc := Ok busyDocument;
     linksDoc := Ok (fun _ => []) |}.

(** Headers with two firm columns and a label attribute. *)
Definition twoFirmHeaders : list jsstring :=
  [js "Firm"; js "RANK 2025"; js "F I R M S"; js "2024 rank"; js "Firm name"].

(** The first entry carrying a given URL. *)
Definition findHref (u : jsstring) (links : list LinkRef) : option LinkRef :=
  List.find (fun link => strictEq (href link) u) links.

(** The links of the anchors the fallback accepts: a non-empty resolved
    URL containing "toplists" and not ending in "/toplists". *)
Definition fallbackLinks (anchors : list Anchor) : list LinkRef :=
  List.map (fun a => {| href := a_href a; text := trim (a_textContent a) |})
           (List.filter (fun a => nonEmpty (a_href a) && includes (a_href a) (js "toplists")
                                  && negb (endsWith (a_href a) (js "/toplists")))
                        anchors).

(** An index page on which no selector finds a toplist anchor; the
    document's anchors include the index itself. *)
Definition plainIndex (selector : string) : list Anchor :=
  if String.eqb selector "a" then
    [ {| a_href := js "https://www.enr.com/toplists"; a_textContent := js "Top Lists" |};
      {| a_href := js "https://www.enr.com/toplists/2025-Top-400-Contractors";
         a_textContent := js " Top 400 " |};
      {| a_href := js "https://www.enr.com/news"; a_textContent := js "News" |};
      {| a_href := js "https://www.enr.com/toplists/2025-Top-400-Contractors";
         a_textContent := js "again" |} ]
  else [].

(** The rows an extraction hands to its caller: none for [null]. *)
Definition rowsOfExtraction (pageData : Exc (option PageData)) : list Row :=
  match pageData with
  | Ok (Some d) => pd_data d
  | _ => []
  end.

(** The rows a visit to a pagination link adds: those extracted from the
    page reached, none when the navigation fails. *)
Definition visitRows (site : Site) (paginationLink : LinkRef) : list Row :=
  match site (href paginationLink) with
  | Ok page => rowsOfExtraction (extractTableData page)
  | Throw _ => []
  end.

(** A site whose main page loads but whose pagination control cannot be
    inspected. *)
Definition brokenPaginationSite : Site :=
  fun url =>
    Ok {| bodyWait := Ok tt;
          challengeCheck := Ok clearSnapshot;
          challengePolls := fun _ => Ok clearSnapshot;
          paginationDoc := Throw "Execution context was destroyed";
          tableWait := Ok tt;
          tablesDoc := Ok [firmsTable];
          linksDoc := Ok (fun _ => []) |}.

(** What crawling one discovered link contributes to the results. *)
Definition listResult (site : Site) (link : LinkRef) : option ToplistResult :=
  match crawlToplistPage site (href link) (text link) with
  | Ok result => result
  | Throw _ => None
  end.

Definition indexPage : Page :=
  {| bodyWait := Ok tt;
     challengeCheck := Ok clearSnapshot;
     challengePolls := fun _ => Ok clearSnapshot;
     paginationDoc := Ok None;
     tableWait := Ok tt;
     tablesDoc := Ok [];
     linksDoc := Ok mixedIndex |}.

(** The home page and the index load; of the two toplists discovered,
    the first has three pages and the second cannot be reached. *)
Definition enrSite : Site :=
  fun url =>
    if strictEq url (js "https://www.enr.com/") then Ok indexPage
    else if strictEq url (js "https://www.enr.com/toplists") then Ok indexPage
    else threePageSite url.

(** The home page stays on the challenge. *)
Definition blockedSite : Site :=
  fun url =>
    Ok {| bodyWait := Ok tt;
          challengeCheck := Ok challengeSnapshot;
          challengePolls := fun _ => Ok challengeSnapshot;
          paginationDoc := Ok None;
          tableWait := Ok tt;
          tablesDoc := Ok [];
          linksDoc := Ok mixedIndex |}.

Fixpoint allChars (P : N -> bool) (s : jsstring) : bool :=
  match s with
  | [] => true
  | c :: s' => P c && allChars P s'
  end.

Definition isAlnumOrDash (c : N) : bool := isAlnum c || (c =? ch "-")%N.

(** No dash is followed by a dash. *)
Fixpoint noDoubleDash (s : jsstring) : bool :=
  match s with
  | [] => true
  | c :: s' => negb ((c =? ch "-")%N && startsWith s' (js "-")) && noDoubleDash s'
  end.

Definition indexResult : ToplistResult :=
  {| listName := js " Top 500 -- Design Firms (2025)! ";
     url := js "https://www.enr.com/toplists";
     headers := canonicalHeaders;
     data := [];
     rowCount := 0;
     paginatedPages := 1 |}.

Definition designFirmsResult : ToplistResult :=
  {| listName := js "Top 500 Design Firms";
     url := js "https://www.enr.com/toplists/2025-Top-500-Design-Firms";
     headers := canonicalHeaders;
     data := [];
     rowCount := 0;
     paginatedPages := 1 |}.

(** A table whose header cells and cells carry no-break spaces (U+00A0). *)
Definition nbspTable : Table :=
  {| t_id := [];
     t_headerCells :=
       [ {| th_textContent := js "RANK" ++ [160%N] ++ js "2025"; th_dataLabel := None |};
         {| th_textContent := js "FIRM" ++ [160%N]; th_dataLabel := None |} ];
     t_dataRows := [ [ js "1" ++ [160%N]; js "AECOM," ++ [160%N] ++ js "Dallas" ] ] |}.

Definition nbspPage : Page :=
  {| bodyWait := Ok tt;
     challengeCheck := Ok clearSnapshot;
     challengePolls := fun _ => Ok clearSnapshot;
     paginationDoc := Ok None;
     tableWait := Ok tt;
     tablesDoc := Ok [nbspTable];
     linksDoc := Ok (fun _ => []) |}.

(** A table with the headers of [duplicateRankHeaders]. *)
Definition duplicateRankTable : Table :=
  {| t_id := js "rankings";
     t_headerCells :=
       List.map (fun h => {| th_textContent := h; th_dataLabel := None |})
                duplicateRankHeaders;
     t_dataRows :=
       [ [ js "9"; js "8"; js "7"; js " 4 "; js "AECOM, Dallas, Texas" ];
         [ js "6"; js "5" ] ] |}.

Definition duplicateRankPage : Page :=
  {| bodyWait := Ok tt;
     challengeCheck := Ok clearSnapshot;
     challengePolls := fun _ => Ok clearSnapshot;
     paginationDoc := Ok None;
     tableWait := Ok tt;
     tablesDoc := Ok [paginationTable; duplicateRankTable];
     linksDoc := Ok (fun _ => []) |}.
(** * Properties *)

(** ** Strings *)

Lemma strictEq_eq (s t : jsstring) : strictEq s t = true <-> s = t.
Proof.
  revert t. induction s as [|a s IH]; intros [|b t]; simpl; split; try discriminate;
    try reflexivity.
  - intros H. apply andb_true_iff in H. destruct H as [Hab Hst].
    apply N.eqb_eq in Hab. apply IH in Hst. congruence.
  - intros [= -> ->]. rewrite N.eqb_refl. apply IH. reflexivity.
Qed.

Lemma strictEq_neq (s t : jsstring) : strictEq s t = false <-> s <> t.
Proof.
  rewrite <- strictEq_eq. destruct (strictEq s t); split; congruence.
Qed.

Lemma includes_char_cons c0 c s :
  includes (c :: s) [c0] = (c =? c0)%N || includes s [c0].
Proof.
  cbn [includes startsWith]. rewrite (N.eqb_sym c0 c).
  destruct (c =? c0)%N, s; reflexivity.
Qed.

Lemma includes_comma_cons c s :
  includes (c :: s) (js ",") = (c =? ch ",")%N || includes s (js ",").
Proof. apply (includes_char_cons (ch ",")). Qed.

Lemma split_nonempty sep s : split sep s <> [].
Proof.
  destruct s as [|c s]; simpl; [discriminate|].
  destruct ((c =? sep)%N); [discriminate|].
  destruct (split sep s); discriminate.
Qed.

Lemma split_first_comma s :
  includes s (js ",") = true ->
  split (ch ",") s = beforeFirstComma s :: split (ch ",") (afterFirstComma s).
Proof.
  induction s as [|c s IH]; [discriminate|].
  rewrite includes_comma_cons. simpl.
  destruct ((c =? ch ",")%N) eqn:Hc; [reflexivity|].
  simpl. intros H. rewrite (IH H). reflexivity.
Qed.

(** ** The challenge gate *)

Lemma pollChallenge_failed_round polls attempts remaining msg :
  polls attempts = Throw msg ->
  pollChallenge polls attempts (S remaining) = pollChallenge polls (S attempts) remaining.
Proof. intros H. simpl. rewrite H. reflexivity. Qed.

Lemma pollChallenge_challenged_round polls attempts remaining s :
  polls attempts = Ok s -> stillOnChallenge s = true ->
  pollChallenge polls attempts (S remaining) = pollChallenge polls (S attempts) remaining.
Proof. intros H Hs. simpl. rewrite H. simpl. rewrite Hs. reflexivity. Qed.

Lemma pollChallenge_returns polls remaining :
  forall attempts, exists b, pollChallenge polls attempts remaining = Ok b.
Proof.
  induction remaining as [|r IH]; intros attempts; simpl.
  - eauto.
  - destruct (polls attempts) as [s|msg]; simpl.
    + destruct (stillOnChallenge s); simpl; eauto.
    + apply IH.
Qed.

(** C1 (amended): a rejected first inspection makes the gate answer
    [false]; a rejected polling inspection is read as "still challenged":
    the round goes on to the next attempt exactly as a round that saw the
    markers does.  The gate itself never rejects. *)
Theorem C1_gate_evaluation_failures (page : Page) :
  (forall msg, challengeCheck page = Throw msg ->
     waitForCloudflareChallenge page = Ok false)
  /\ (forall polls attempts remaining msg,
        polls attempts = Throw msg ->
        pollChallenge polls attempts (S remaining)
        = pollChallenge polls (S attempts) remaining)
  /\ (forall polls attempts remaining s,
        polls attempts = Ok s -> stillOnChallenge s = true ->
        pollChallenge polls attempts (S remaining)
        = pollChallenge polls (S attempts) remaining)
  /\ (exists b, waitForCloudflareChallenge page = Ok b).
Proof.
  repeat split.
  - intros msg H. unfold waitForCloudflareChallenge.
    rewrite H. destruct (bodyWait page) as [[]|e]; reflexivity.
  - apply pollChallenge_failed_round.
  - apply pollChallenge_challenged_round.
  - unfold waitForCloudflareChallenge.
    destruct (pollChallenge_returns (challengePolls page) maxAttempts 0) as [b Hb].
    destruct (bodyWait page) as [[]|e]; cbn [tryCatch bindExc];
      (destruct (challengeCheck page) as [s|msg]; cbn [tryCatch bindExc]; [|eauto];
       destruct (isChallenge s); [rewrite Hb|]; cbn [tryCatch]; eauto).
Qed.

(** ** Extraction failures *)

Lemma extractTableData_unfold (page : Page) :
  extractTableData page =
  match tablesDoc page with
  | Ok document =>
      if (0 <? List.length (allTablesDataOf document))%nat then
        Ok (Some {| pd_headers := canonicalHeaders;
                    pd_data := List.concat (List.map tr_data (allTablesDataOf document));
                    tablesFound := List.length (allTablesDataOf document) |})
      else Ok None
  | Throw _ => Ok None
  end.
Proof.
  unfold extractTableData.
  destruct (tableWait page) as [[]|e]; cbn [tryCatch bindExc];
    (destruct (tablesDoc page) as [document|msg]; cbn [tryCatch bindExc]; [|reflexivity];
     destruct (0 <? List.length (allTablesDataOf document))%nat; reflexivity).
Qed.

Lemma extractTableData_returns (page : Page) :
  exists r, extractTableData page = Ok r.
Proof.
  rewrite extractTableData_unfold.
  destruct (tablesDoc page) as [document|msg]; [|eauto].
  destruct (0 <? List.length (allTablesDataOf document))%nat; eauto.
Qed.

Lemma scanTable_data_nonempty results table k :
  Forall (fun t => tr_data t <> []) results ->
  Forall (fun t => tr_data t <> []) (scanTable results table k).
Proof.
  intros H. unfold scanTable.
  destruct (List.length (List.map headerOf (t_headerCells table)) =? 0)%nat; [exact H|].
  destruct (firmIndex (resolveColumns (List.map headerOf (t_headerCells table))) =? -1)%Z;
    [exact H|].
  destruct (0 <? List.length _)%nat eqn:Hlen; [|exact H].
  apply Forall_app. split; [exact H|].
  constructor; [|constructor]. simpl. intros Hnil. rewrite Hnil in Hlen. discriminate.
Qed.

Lemma scanTables_data_nonempty tables :
  forall results k,
    Forall (fun t => tr_data t <> []) results ->
    Forall (fun t => tr_data t <> []) (scanTables results tables k).
Proof.
  induction tables as [|table rest IH]; intros results k H; simpl; [exact H|].
  apply IH. apply scanTable_data_nonempty. exact H.
Qed.

Lemma scanRows_omap ix dataRows :
  forall rows, List.fold_left (scanRow ix) dataRows rows = rows ++ omap (rowOf ix) dataRows.
Proof.
  induction dataRows as [|cells rest IH]; intros rows; simpl;
    [rewrite app_nil_r; reflexivity|].
  rewrite IH. unfold scanRow, rowOf.
  destruct (List.length cells =? 0)%nat; [reflexivity|].
  destruct (cellAt cells (firmIndex ix)); [|reflexivity].
  rewrite <- app_assoc. reflexivity.
Qed.

Lemma scanTable_tableRows results table k :
  scanTable results table k
  = results ++ (if hasRows (tableRows table)
                then [{| tableIndex := k;
                         tr_headers := canonicalHeaders;
                         tr_data := tableRows table;
                         tr_rowCount := List.length (tableRows table) |}]
                else []).
Proof.
  unfold scanTable, tableRows, hasRows.
  destruct (List.length (List.map headerOf (t_headerCells table)) =? 0)%nat;
    [simpl; rewrite app_nil_r; reflexivity|].
  destruct (firmIndex (resolveColumns (List.map headerOf (t_headerCells table))) =? -1)%Z;
    [simpl; rewrite app_nil_r; reflexivity|].
  rewrite scanRows_omap. simpl.
  destruct (0 <? List.length _)%nat; [reflexivity|rewrite app_nil_r; reflexivity].
Qed.

Lemma scanTables_data tables :
  forall results k,
    List.map tr_data (scanTables results tables k)
    = List.map tr_data results ++ List.filter hasRows (List.map tableRows tables).
Proof.
  induction tables as [|table rest IH]; intros results k; simpl;
    [rewrite app_nil_r; reflexivity|].
  rewrite IH, scanTable_tableRows, List.map_app, <- app_assoc.
  destruct (hasRows (tableRows table)); reflexivity.
Qed.

Lemma concat_filter_hasRows (l : list (list Row)) :
  List.concat (List.filter hasRows l) = List.concat l.
Proof.
  induction l as [|rows rest IH]; simpl; [reflexivity|].
  destruct rows as [|r rows]; simpl; [exact IH|]. rewrite IH. reflexivity.
Qed.

Lemma allTablesDataOf_data document :
  List.map tr_data (allTablesDataOf document)
  = List.filter hasRows (List.map tableRows (List.filter isDataTable document)).
Proof. unfold allTablesDataOf. rewrite scanTables_data. reflexivity. Qed.

Lemma extractTableData_concat (page : Page) (document : list Table) :
  tablesDoc page = Ok document ->
  let perTable := List.map tableRows (List.filter isDataTable document) in
  extractTableData page
  = Ok (if hasRows (List.concat perTable)
        then Some {| pd_headers := canonicalHeaders;
                     pd_data := List.concat perTable;
                     tablesFound := List.length (List.filter hasRows perTable) |}
        else None).
Proof.
  intros Hdoc perTable. rewrite extractTableData_unfold, Hdoc.
  assert (Hdata := allTablesDataOf_data document). fold perTable in Hdata.
  assert (Hlen : List.length (allTablesDataOf document)
                 = List.length (List.filter hasRows perTable)).
  { rewrite <- Hdata, List.length_map. reflexivity. }
  rewrite Hdata, Hlen, concat_filter_hasRows.
  assert (Hsame : (0 <? List.length (List.filter hasRows perTable))%nat
                  = hasRows (List.concat perTable)).
  { unfold hasRows at 2. clear Hdata Hlen.
    induction perTable as [|rows rest IH]; [reflexivity|].
    simpl. destruct rows as [|r rows]; simpl; [exact IH|reflexivity]. }
  rewrite Hsame. destruct (hasRows (List.concat perTable)); reflexivity.
Qed.

Lemma cellAt_nil i : cellAt [] i = None.
Proof. unfold cellAt. destruct (i <? 0)%Z; reflexivity. Qed.

Lemma rowOf_Some ix cells row :
  rowOf ix cells = Some row
  <-> exists firmCell, cellAt cells (firmIndex ix) = Some firmCell
                       /\ row = buildRow ix cells firmCell.
Proof.
  unfold rowOf. destruct cells as [|c cells].
  - rewrite cellAt_nil. split; [discriminate|]. intros (f & Hf & _). discriminate.
  - cbn [List.length Nat.eqb].
    destruct (cellAt (c :: cells) (firmIndex ix)) as [f|]; split.
    + intros [= <-]. exists f. split; reflexivity.
    + intros (f' & [= <-] & ->). reflexivity.
    + discriminate.
    + intros (f' & Hf & _). discriminate.
Qed.

(** The rows of a table, by membership. *)
Lemma tableRows_In table row :
  In row (tableRows table)
  <-> exists cells firmCell,
        In cells (t_dataRows table)
        /\ cellAt cells (firmIndex (resolveColumns (List.map headerOf (t_headerCells table))))
           = Some firmCell
        /\ row = buildRow (resolveColumns (List.map headerOf (t_headerCells table)))
                          cells firmCell.
Proof.
  unfold tableRows.
  set (ix := resolveColumns (List.map headerOf (t_headerCells table))).
  assert (Hno : firmIndex ix = (-1)%Z ->
                ~ exists cells firmCell,
                    In cells (t_dataRows table)
                    /\ cellAt cells (firmIndex ix) = Some firmCell
                    /\ row = buildRow ix cells firmCell).
  { intros Hix (cells & f & _ & Hf & _). rewrite Hix in Hf. discriminate Hf. }
  destruct (List.length (List.map headerOf (t_headerCells table)) =? 0)%nat eqn:Hlen.
  - split; [intros []|]. apply Hno. subst ix.
    destruct (List.map headerOf (t_headerCells table)); [reflexivity|discriminate Hlen].
  - destruct (firmIndex ix =? -1)%Z eqn:Hix.
    + split; [intros []|]. apply Hno. apply Z.eqb_eq. exact Hix.
    + rewrite <- list_elem_of_In, list_elem_of_omap. split.
      * intros (cells & Hin & Hrow). apply rowOf_Some in Hrow.
        destruct Hrow as (f & Hf & ->). exists cells, f.
        split; [apply list_elem_of_In, Hin|]. split; [exact Hf|reflexivity].
      * intros (cells & f & Hin & Hf & ->). exists cells.
        split; [apply list_elem_of_In, Hin|]. apply rowOf_Some. exists f.
        split; [exact Hf|reflexivity].
Qed.

Lemma isDataTable_true table :
  isDataTable table = true <-> t_id table <> js "paginationTable".
Proof.
  unfold isDataTable. rewrite negb_true_iff. apply strictEq_neq.
Qed.

Lemma perTable_In document row :
  In row (List.concat (List.map tableRows (List.filter isDataTable document)))
  <-> exists table cells firmCell,
        In table document /\ extractedFrom table cells firmCell row.
Proof.
  rewrite List.in_concat. split.
  - intros (rows & Hrows & Hrow). apply List.in_map_iff in Hrows.
    destruct Hrows as (table & <- & Htable). apply List.filter_In in Htable.
    destruct Htable as [Hin Hdata]. apply isDataTable_true in Hdata.
    apply tableRows_In in Hrow. destruct Hrow as (cells & f & Hc & Hf & ->).
    exists table, cells, f. split; [exact Hin|]. repeat split; assumption.
  - intros (table & cells & f & Hin & Hid & Hc & Hf & ->).
    exists (tableRows table). split.
    + apply List.in_map. apply List.filter_In. split; [exact Hin|].
      apply isDataTable_true. exact Hid.
    + apply tableRows_In. exists cells, f. repeat split; assumption.
Qed.

(** Every row of an extraction comes from a body row of a data table of
    the document. *)
Lemma extraction_rows page document d row :
  tablesDoc page = Ok document ->
  extractTableData page = Ok (Some d) ->
  In row (pd_data d)
  <-> exists table cells firmCell,
        In table document /\ extractedFrom table cells firmCell row.
Proof.
  intros Hdoc. rewrite (extractTableData_concat page document Hdoc).
  destruct (hasRows _); [|discriminate]. intros [= <-]. cbn [pd_data].
  apply perTable_In.
Qed.

(** Every body row of a data table with a cell in the firm column yields
    a row of the extraction. *)
Lemma extraction_complete page document table cells firmCell row :
  tablesDoc page = Ok document ->
  In table document ->
  extractedFrom table cells firmCell row ->
  exists d, extractTableData page = Ok (Some d) /\ In row (pd_data d).
Proof.
  intros Hdoc Hin Hfrom. rewrite (extractTableData_concat page document Hdoc).
  assert (Hrow : In row (List.concat
                           (List.map tableRows (List.filter isDataTable document)))).
  { apply perTable_In. exists table, cells, firmCell. split; assumption. }
  unfold hasRows.
  destruct (List.concat (List.map tableRows (List.filter isDataTable document)))
    as [|r rows] eqn:E; [destruct Hrow|].
  cbn [List.length Nat.ltb Nat.leb]. eexists. split; [reflexivity|]. exact Hrow.
Qed.

(** C2 (amended): [extractTableData] never rejects; when the inspection
    of the tables rejects, or the document holds no table besides the
    pagination table, it returns [null] (here [None]), which its callers
    read as "no rows".  A timed-out wait for a table is only logged. *)
Theorem C2_extraction_failure_is_null (page : Page) :
  (exists r, extractTableData page = Ok r)
  /\ (forall msg, tablesDoc page = Throw msg -> extractTableData page = Ok None)
  /\ (forall document,
        tablesDoc page = Ok document ->
        Forall (fun table => t_id table = (js "paginationTable")) document ->
        extractTableData page = Ok None)
  /\ (forall d, extractTableData page = Ok (Some d) ->
        pd_data d <> [] /\ (0 < tablesFound d)%nat).
Proof.
  split; [apply extractTableData_returns|].
  rewrite extractTableData_unfold.
  split; [|split].
  - intros msg ->. reflexivity.
  - intros document -> Hall.
    assert (Hf : List.filter
                   (fun table => negb (strictEq (t_id table) (js "paginationTable")))
                   document = []).
    { induction Hall as [|table rest Hid _ IH]; [reflexivity|].
      simpl. rewrite Hid. simpl. exact IH. }
    unfold allTablesDataOf. rewrite Hf. reflexivity.
  - intros d. destruct (tablesDoc page) as [document|msg]; [|discriminate].
    destruct (0 <? List.length (allTablesDataOf document))%nat eqn:Hlen; [|discriminate].
    intros [= <-]. simpl. apply Nat.ltb_lt in Hlen. split; [|exact Hlen].
    assert (Hne : Forall (fun t => tr_data t <> []) (allTablesDataOf document)).
    { apply scanTables_data_nonempty. constructor. }
    destruct (allTablesDataOf document) as [|t ts]; [simpl in Hlen; lia|].
    apply Forall_cons in Hne. destruct Hne as [Ht _].
    simpl. destruct (tr_data t); [contradiction|discriminate].
Qed.

(** ** Header resolution *)

Lemma scanHeader_rank2025 st h idx :
  rank2025Index (scanHeader st h idx)
  = if matchesRank2025 h then idx else rank2025Index st.
Proof.
  unfold scanHeader, matchesRank2025.
  destruct (includes (normalize h) (js "2025") && includes (normalize h) (js "RANK"));
    destruct ((includes (normalize h) (js "2024") || includes (normalize h) (js "2023"))
              && includes (normalize h) (js "RANK"));
    destruct (rank2024Index st =? -1)%Z;
    destruct (strictEq (normalize h) (js "FIRM") || strictEq (normalize h) (js "FIRMS"));
    reflexivity.
Qed.

Lemma scanHeader_rank2024 st h idx :
  rank2024Index (scanHeader st h idx)
  = if takesRank2024 h && (rank2024Index st =? -1)%Z then idx else rank2024Index st.
Proof.
  unfold scanHeader, takesRank2024, matchesRank2024, matchesRank2025.
  destruct (includes (normalize h) (js "2025") && includes (normalize h) (js "RANK"));
    destruct ((includes (normalize h) (js "2024") || includes (normalize h) (js "2023"))
              && includes (normalize h) (js "RANK"));
    destruct (rank2024Index st =? -1)%Z;
    destruct (strictEq (normalize h) (js "FIRM") || strictEq (normalize h) (js "FIRMS"));
    reflexivity.
Qed.

Lemma scanHeader_firm st h idx :
  firmIndex (scanHeader st h idx) = if matchesFirm h then idx else firmIndex st.
Proof.
  unfold scanHeader, matchesFirm.
  destruct (includes (normalize h) (js "2025") && includes (normalize h) (js "RANK"));
    destruct ((includes (normalize h) (js "2024") || includes (normalize h) (js "2023"))
              && includes (normalize h) (js "RANK"));
    destruct (rank2024Index st =? -1)%Z;
    destruct (strictEq (normalize h) (js "FIRM") || strictEq (normalize h) (js "FIRMS"));
    reflexivity.
Qed.

Section ScanHeaders.

(** The three columns are resolved by the same left-to-right scan; each
    lemma follows one field through it. *)
Lemma scanHeaders_rank2025_none headers :
  forall st idx,
    (forall h, In h headers -> matchesRank2025 h = false) ->
    rank2025Index (scanHeaders st headers idx) = rank2025Index st.
Proof.
  induction headers as [|h rest IH]; intros st idx Hnone; simpl; [reflexivity|].
  rewrite IH by (intros h' Hin; apply Hnone; right; exact Hin).
  rewrite scanHeader_rank2025, (Hnone h) by (left; reflexivity). reflexivity.
Qed.

Lemma scanHeaders_rank2025_last headers :
  forall st idx (i : nat) h,
    headers !! i = Some h ->
    matchesRank2025 h = true ->
    (forall (j : nat) h', (i < j)%nat -> headers !! j = Some h' -> matchesRank2025 h' = false) ->
    rank2025Index (scanHeaders st headers idx) = (idx + Z.of_nat i)%Z.
Proof.
  induction headers as [|h0 rest IH]; intros st idx i h Hi Hm Hlater; [discriminate|].
  destruct i as [|i]; simpl in *.
  - injection Hi as ->.
    rewrite scanHeaders_rank2025_none.
    + rewrite scanHeader_rank2025, Hm. lia.
    + intros h' Hin. apply list_elem_of_In, list_elem_of_lookup in Hin.
      destruct Hin as [j Hj]. apply (Hlater (S j)); [lia|exact Hj].
  - rewrite (IH _ _ i h Hi Hm); [lia|].
    intros j h' Hlt Hj. apply (Hlater (S j)); [lia|exact Hj].
Qed.

Lemma scanHeaders_rank2024_kept headers :
  forall st idx,
    rank2024Index st <> (-1)%Z ->
    rank2024Index (scanHeaders st headers idx) = rank2024Index st.
Proof.
  induction headers as [|h rest IH]; intros st idx Hset; simpl; [reflexivity|].
  assert (Hstep : rank2024Index (scanHeader st h idx) = rank2024Index st).
  { rewrite scanHeader_rank2024.
    destruct (rank2024Index st =? -1)%Z eqn:E; [apply Z.eqb_eq in E; contradiction|].
    rewrite andb_false_r. reflexivity. }
  rewrite IH; rewrite Hstep; [reflexivity|exact Hset].
Qed.

Lemma scanHeaders_rank2024_none headers :
  forall st idx,
    (forall h, In h headers -> takesRank2024 h = false) ->
    rank2024Index (scanHeaders st headers idx) = rank2024Index st.
Proof.
  induction headers as [|h rest IH]; intros st idx Hnone; simpl; [reflexivity|].
  rewrite IH by (intros h' Hin; apply Hnone; right; exact Hin).
  rewrite scanHeader_rank2024, (Hnone h) by (left; reflexivity). reflexivity.
Qed.

Lemma scanHeaders_rank2024_first headers :
  forall st idx (i : nat) h,
    rank2024Index st = (-1)%Z ->
    (0 <= idx)%Z ->
    headers !! i = Some h ->
    takesRank2024 h = true ->
    (forall (j : nat) h', (j < i)%nat -> headers !! j = Some h' -> takesRank2024 h' = false) ->
    rank2024Index (scanHeaders st headers idx) = (idx + Z.of_nat i)%Z.
Proof.
  induction headers as [|h0 rest IH]; intros st idx i h Hst Hidx Hi Hm Hearlier;
    [discriminate|].
  destruct i as [|i]; simpl in *.
  - injection Hi as ->.
    assert (Hstep : rank2024Index (scanHeader st h idx) = idx).
    { rewrite scanHeader_rank2024, Hm, Hst. reflexivity. }
    rewrite scanHeaders_rank2024_kept; rewrite Hstep; lia.
  - assert (Hstep : rank2024Index (scanHeader st h0 idx) = (-1)%Z).
    { rewrite scanHeader_rank2024, (Hearlier 0%nat h0) by (lia || reflexivity).
      exact Hst. }
    rewrite (IH (scanHeader st h0 idx) (idx + 1)%Z i h Hstep ltac:(lia) Hi Hm); [lia|].
    intros j h' Hlt Hj. apply (Hearlier (S j)); [lia|exact Hj].
Qed.

Lemma scanHeaders_firm_none headers :
  forall st idx,
    (forall h, In h headers -> matchesFirm h = false) ->
    firmIndex (scanHeaders st headers idx) = firmIndex st.
Proof.
  induction headers as [|h rest IH]; intros st idx Hnone; simpl; [reflexivity|].
  rewrite IH by (intros h' Hin; apply Hnone; right; exact Hin).
  rewrite scanHeader_firm, (Hnone h) by (left; reflexivity). reflexivity.
Qed.

Lemma scanHeaders_firm_source headers :
  forall st idx,
    firmIndex (scanHeaders st headers idx) = firmIndex st
    \/ exists (k : nat) h,
         headers !! k = Some h /\ matchesFirm h = true
         /\ firmIndex (scanHeaders st headers idx) = (idx + Z.of_nat k)%Z.
Proof.
  induction headers as [|h rest IH]; intros st idx; simpl; [left; reflexivity|].
  destruct (IH (scanHeader st h idx) (idx + 1)%Z) as [Hsame | (k & h' & Hk & Hm & Hfirm)].
  - rewrite Hsame, scanHeader_firm. destruct (matchesFirm h) eqn:Hm.
    + right. exists 0%nat, h. repeat split; [exact Hm|lia].
    + left. reflexivity.
  - right. exists (S k), h'. repeat split; [exact Hk|exact Hm|lia].
Qed.

End ScanHeaders.

Lemma scanHeaders_normalized headers :
  forall headers' st idx,
    List.map normalize headers' = List.map normalize headers ->
    scanHeaders st headers' idx = scanHeaders st headers idx.
Proof.
  induction headers as [|h rest IH]; intros [|h' rest'] st idx Heq;
    try discriminate; [reflexivity|].
  simpl in *. injection Heq as Hh Hrest.
  assert (Hstep : scanHeader st h' idx = scanHeader st h idx).
  { unfold scanHeader. rewrite Hh. reflexivity. }
  rewrite Hstep. apply IH. exact Hrest.
Qed.

Lemma tableRows_no_firm table :
  firmIndex (resolveColumns (List.map headerOf (t_headerCells table))) = (-1)%Z ->
  tableRows table = [].
Proof.
  intros H. unfold tableRows. rewrite H.
  destruct (List.length (List.map headerOf (t_headerCells table)) =? 0)%nat; reflexivity.
Qed.

(** C5: the firm column, when resolved, sits on a header whose
    normalized form is exactly "FIRM" or "FIRMS"; a table none of whose
    headers normalizes to one of the two is left out, whatever its other
    columns: the table callback pushes nothing for it, and a document
    yields the same rows with it as without it. *)
Theorem C5_firm_column_exact_match (table : Table) :
  let headers := List.map headerOf (t_headerCells table) in
  (firmIndex (resolveColumns headers) <> (-1)%Z ->
     exists (k : nat) h,
       headers !! k = Some h
       /\ firmIndex (resolveColumns headers) = Z.of_nat k
       /\ (normalize h = js "FIRM" \/ normalize h = js "FIRMS"))
  /\ ((forall h, In h headers -> normalize h <> js "FIRM" /\ normalize h <> js "FIRMS") ->
      (forall results k, scanTable results table k = results)
      /\ (forall before after page page',
            tablesDoc page = Ok (before ++ table :: after) ->
            tablesDoc page' = Ok (before ++ after) ->
            rowsOfExtraction (extractTableData page)
            = rowsOfExtraction (extractTableData page'))).
Proof.
  intros headers. split.
  - intros Hres. unfold resolveColumns in *.
    destruct (scanHeaders_firm_source headers noIndices 0) as [Hsame | (k & h & Hk & Hm & Hfirm)].
    + rewrite Hsame in Hres. contradiction.
    + exists k, h. repeat split; [exact Hk|lia|].
      unfold matchesFirm in Hm. apply orb_true_iff in Hm.
      destruct Hm as [Hm|Hm]; apply strictEq_eq in Hm; [left|right]; exact Hm.
  - intros Hnone.
    assert (Hix : firmIndex (resolveColumns headers) = (-1)%Z).
    { unfold resolveColumns. rewrite scanHeaders_firm_none; [reflexivity|].
      intros h Hin. destruct (Hnone h Hin) as [H1 H2].
      unfold matchesFirm. apply orb_false_iff.
      split; apply strictEq_neq; assumption. }
    split.
    + intros results k. unfold scanTable. fold headers.
      destruct (List.length headers =? 0)%nat; [reflexivity|].
      rewrite Hix. reflexivity.
    + intros before after page page' Hdoc Hdoc'.
      rewrite (extractTableData_concat page _ Hdoc), (extractTableData_concat page' _ Hdoc').
      assert (Hsame :
        List.concat (List.map tableRows (List.filter isDataTable (before ++ table :: after)))
        = List.concat (List.map tableRows (List.filter isDataTable (before ++ after)))).
      { rewrite !List.filter_app, !List.map_app, !List.concat_app. f_equal.
        cbn [List.filter]. destruct (isDataTable table); [|reflexivity].
        cbn [List.map List.concat]. rewrite (tableRows_no_firm table Hix). reflexivity. }
      rewrite Hsame.
      destruct (hasRows _); reflexivity.
Qed.

(** C7 (amended): the rank-2024 column is the first header whose
    normalized form contains "RANK" and one of "2024", "2023" and does not
    match the rank-2025 pattern; later such headers are ignored, and without
    any the column stays unresolved.  Resolution reads a header only through
    its upper-cased form with all white space removed: headers that agree
    after upper-casing, or after upper-casing and removal of white space,
    resolve to the same columns. *)
Theorem C7_rank2024_first_match (headers : list jsstring) :
  (forall (i : nat) h,
      headers !! i = Some h ->
      takesRank2024 h = true ->
      (forall (j : nat) h', (j < i)%nat -> headers !! j = Some h' -> takesRank2024 h' = false) ->
      rank2024Index (resolveColumns headers) = Z.of_nat i)
  /\ ((forall h, In h headers -> takesRank2024 h = false) ->
      rank2024Index (resolveColumns headers) = (-1)%Z)
  /\ (forall headers',
        List.map toUpperCase headers' = List.map toUpperCase headers ->
        resolveColumns headers' = resolveColumns headers)
  /\ (forall headers',
        List.map (fun h => removeSpaces (toUpperCase h)) headers'
        = List.map (fun h => removeSpaces (toUpperCase h)) headers ->
        resolveColumns headers' = resolveColumns headers).
Proof.
  unfold resolveColumns. repeat split.
  - intros i h Hi Hm Hearlier.
    rewrite (scanHeaders_rank2024_first headers noIndices 0 i h); auto; lia.
  - intros Hnone. rewrite scanHeaders_rank2024_none; [reflexivity|exact Hnone].
  - intros headers' Heq. apply scanHeaders_normalized. unfold normalize.
    rewrite <- !(List.map_map toUpperCase removeSpaces), Heq. reflexivity.
  - intros headers' Heq. apply scanHeaders_normalized. exact Heq.
Qed.

(** ** Row objects *)

Lemma buildRow_rank2025 ix cells firmCell :
  buildRow ix cells firmCell !! "RANK 2025"
  = if negb (rank2025Index ix =? -1)%Z
    then trim <$> cellAt cells (rank2025Index ix) else None.
Proof.
  unfold buildRow. destruct (parseFirm (trim firmCell)) as [companyName location].
  destruct (negb (rank2025Index ix =? -1)%Z), (negb (rank2024Index ix =? -1)%Z);
    destruct (cellAt cells (rank2025Index ix)), (cellAt cells (rank2024Index ix));
    reflexivity.
Qed.

Lemma buildRow_rank2024 ix cells firmCell :
  buildRow ix cells firmCell !! "RANK 2024"
  = if negb (rank2024Index ix =? -1)%Z
    then trim <$> cellAt cells (rank2024Index ix) else None.
Proof.
  unfold buildRow. destruct (parseFirm (trim firmCell)) as [companyName location].
  destruct (negb (rank2025Index ix =? -1)%Z), (negb (rank2024Index ix =? -1)%Z);
    destruct (cellAt cells (rank2025Index ix)), (cellAt cells (rank2024Index ix));
    reflexivity.
Qed.

Lemma buildRow_firm ix cells firmCell :
  buildRow ix cells firmCell !! "Company Name" = Some (fst (parseFirm (trim firmCell)))
  /\ buildRow ix cells firmCell !! "Location" = Some (snd (parseFirm (trim firmCell))).
Proof.
  unfold buildRow. destruct (parseFirm (trim firmCell)) as [companyName location].
  destruct (negb (rank2025Index ix =? -1)%Z), (negb (rank2024Index ix =? -1)%Z);
    destruct (cellAt cells (rank2025Index ix)), (cellAt cells (rank2024Index ix));
    split; reflexivity.
Qed.

Lemma buildRow_dom ix cells firmCell :
  dom (buildRow ix cells firmCell) ⊆ canonicalKeys.
Proof.
  clear toUpperCase toLowerCase.
  unfold buildRow, canonicalKeys.
  destruct (parseFirm (trim firmCell)) as [companyName location].
  destruct (negb (rank2025Index ix =? -1)%Z), (negb (rank2024Index ix =? -1)%Z);
    destruct (cellAt cells (rank2025Index ix)), (cellAt cells (rank2024Index ix));
    rewrite ?dom_insert_L, dom_empty_L; set_solver.
Qed.

Lemma scanRow_rows (P : Row -> Prop) ix rows cells :
  (forall firmCell, P (buildRow ix cells firmCell)) ->
  Forall P rows -> Forall P (scanRow ix rows cells).
Proof.
  intros Hbuild Hrows. unfold scanRow.
  destruct (List.length cells =? 0)%nat; [exact Hrows|].
  destruct (cellAt cells (firmIndex ix)) as [firmCell|]; [|exact Hrows].
  apply Forall_app. split; [exact Hrows|]. constructor; [apply Hbuild|constructor].
Qed.

Lemma scanRows_rows (P : Row -> Prop) ix dataRows :
  (forall cells firmCell, P (buildRow ix cells firmCell)) ->
  forall rows, Forall P rows -> Forall P (List.fold_left (scanRow ix) dataRows rows).
Proof.
  intros Hbuild. induction dataRows as [|cells rest IH]; intros rows Hrows; simpl;
    [exact Hrows|].
  apply IH. apply scanRow_rows; [apply Hbuild|exact Hrows].
Qed.

Lemma scanTable_rows (P : Row -> Prop) results table k :
  (forall ix cells firmCell, P (buildRow ix cells firmCell)) ->
  Forall (fun t => Forall P (tr_data t)) results ->
  Forall (fun t => Forall P (tr_data t)) (scanTable results table k).
Proof.
  intros Hbuild H. unfold scanTable.
  destruct (List.length (List.map headerOf (t_headerCells table)) =? 0)%nat; [exact H|].
  destruct (firmIndex (resolveColumns (List.map headerOf (t_headerCells table))) =? -1)%Z;
    [exact H|].
  destruct (0 <? List.length _)%nat; [|exact H].
  apply Forall_app. split; [exact H|].
  constructor; [|constructor]. simpl.
  apply scanRows_rows; [apply Hbuild|constructor].
Qed.

Lemma scanTables_rows (P : Row -> Prop) tables :
  (forall ix cells firmCell, P (buildRow ix cells firmCell)) ->
  forall results k,
    Forall (fun t => Forall P (tr_data t)) results ->
    Forall (fun t => Forall P (tr_data t)) (scanTables results tables k).
Proof.
  intros Hbuild. induction tables as [|table rest IH]; intros results k H; simpl;
    [exact H|].
  apply IH. apply scanTable_rows; [exact Hbuild|exact H].
Qed.

(** Every row of an extraction was made by [buildRow]. *)
Lemma extractTableData_rows (P : Row -> Prop) page d :
  (forall ix cells firmCell, P (buildRow ix cells firmCell)) ->
  extractTableData page = Ok (Some d) ->
  Forall P (pd_data d).
Proof.
  intros Hbuild. rewrite extractTableData_unfold.
  destruct (tablesDoc page) as [document|msg]; [|discriminate].
  destruct (0 <? List.length (allTablesDataOf document))%nat; [|discriminate].
  intros [= <-]. simpl.
  assert (H : Forall (fun t => Forall P (tr_data t)) (allTablesDataOf document)).
  { apply scanTables_rows; [exact Hbuild|constructor]. }
  induction H as [|t ts Ht _ IH]; simpl; [constructor|].
  apply Forall_app. split; assumption.
Qed.

Lemma buildRow_rank_keys ix cells firmCell :
  (forall v, buildRow ix cells firmCell !! "RANK 2025" = Some v <->
     rank2025Index ix <> (-1)%Z
     /\ exists c, cellAt cells (rank2025Index ix) = Some c /\ v = trim c)
  /\ (forall v, buildRow ix cells firmCell !! "RANK 2024" = Some v <->
        rank2024Index ix <> (-1)%Z
        /\ exists c, cellAt cells (rank2024Index ix) = Some c /\ v = trim c).
Proof.
  rewrite buildRow_rank2025, buildRow_rank2024. split; intros v; split.
  - destruct (rank2025Index ix =? -1)%Z eqn:E; [discriminate|].
    apply Z.eqb_neq in E. cbn [negb].
    destruct (cellAt cells (rank2025Index ix)) as [c|]; [|discriminate].
    intros [= <-]. eauto.
  - intros (Hne & c & Hcell & ->). apply Z.eqb_neq in Hne. rewrite Hne, Hcell. reflexivity.
  - destruct (rank2024Index ix =? -1)%Z eqn:E; [discriminate|].
    apply Z.eqb_neq in E. cbn [negb].
    destruct (cellAt cells (rank2024Index ix)) as [c|]; [|discriminate].
    intros [= <-]. eauto.
  - intros (Hne & c & Hcell & ->). apply Z.eqb_neq in Hne. rewrite Hne, Hcell. reflexivity.
Qed.

(** C9: every row of an extraction has no property outside the canonical
    four and always has "Company Name" and "Location".  It was made from a
    body row of a data table of the document, and has "RANK 2025" (resp.
    "RANK 2024") exactly when that column was resolved for that table and
    the body row has a cell there, the value being the trimmed cell; the
    property is missing otherwise.  Conversely every body row of a data
    table with a cell in the firm column yields such a row. *)
Theorem C9_row_keys (page : Page) (document : list Table) :
  tablesDoc page = Ok document ->
  (forall d row,
      extractTableData page = Ok (Some d) ->
      In row (pd_data d) ->
      dom row ⊆ canonicalKeys
      /\ is_Some (row !! "Company Name")
      /\ is_Some (row !! "Location")
      /\ exists table cells firmCell,
           In table document
           /\ extractedFrom table cells firmCell row
           /\ let ix := resolveColumns (List.map headerOf (t_headerCells table)) in
              (forall v, row !! "RANK 2025" = Some v <->
                 rank2025Index ix <> (-1)%Z
                 /\ exists c, cellAt cells (rank2025Index ix) = Some c /\ v = trim c)
              /\ (forall v, row !! "RANK 2024" = Some v <->
                    rank2024Index ix <> (-1)%Z
                    /\ exists c, cellAt cells (rank2024Index ix) = Some c /\ v = trim c)
              /\ (rank2025Index ix = (-1)%Z \/ cellAt cells (rank2025Index ix) = None ->
                  row !! "RANK 2025" = None)
              /\ (rank2024Index ix = (-1)%Z \/ cellAt cells (rank2024Index ix) = None ->
                  row !! "RANK 2024" = None))
  /\ (forall table cells firmCell row,
        In table document ->
        extractedFrom table cells firmCell row ->
        exists d, extractTableData page = Ok (Some d) /\ In row (pd_data d)).
Proof.
  intros Hdoc. split.
  - intros d row Hd Hrow.
    pose proof (proj1 (extraction_rows page document d row Hdoc Hd) Hrow)
      as (table & cells & firmCell & Hin & Hfrom).
    pose proof Hfrom as (_ & _ & _ & ->).
    split; [apply buildRow_dom|].
    destruct (buildRow_firm (resolveColumns (List.map headerOf (t_headerCells table)))
                cells firmCell) as [Hname Hloc].
    split; [rewrite Hname; eauto|]. split; [rewrite Hloc; eauto|].
    exists table, cells, firmCell. split; [exact Hin|]. split; [exact Hfrom|].
    cbv zeta.
    destruct (buildRow_rank_keys (resolveColumns (List.map headerOf (t_headerCells table)))
                cells firmCell) as [H25 H24].
    split; [exact H25|]. split; [exact H24|].
    rewrite buildRow_rank2025, buildRow_rank2024.
    split; (intros [-> | ->]; [reflexivity|]; destruct (negb _); reflexivity).
  - intros table cells firmCell row Hin Hfrom.
    exact (extraction_complete page document table cells firmCell row Hdoc Hin Hfrom).
Qed.

(** C10: when several headers of a table match the rank-2025 pattern, the
    column resolved for rank 2025 is the last of them; every body row of the
    table with a cell in the firm column yields a row of the extraction, and
    the "RANK 2025" value of that row is the trimmed cell of that last
    column (the property is missing when the body row has no such cell). *)
Theorem C10_rank2025_last_match
    (page : Page) (document : list Table) (table : Table) (i : nat) (h : jsstring) :
  tablesDoc page = Ok document ->
  In table document ->
  List.map headerOf (t_headerCells table) !! i = Some h ->
  matchesRank2025 h = true ->
  (forall (j : nat) h', (i < j)%nat ->
     List.map headerOf (t_headerCells table) !! j = Some h' ->
     matchesRank2025 h' = false) ->
  rank2025Index (resolveColumns (List.map headerOf (t_headerCells table))) = Z.of_nat i
  /\ forall (cells : list jsstring) firmCell row,
       extractedFrom table cells firmCell row ->
       (exists d, extractTableData page = Ok (Some d) /\ In row (pd_data d))
       /\ row !! "RANK 2025" = trim <$> cells !! i.
Proof.
  intros Hdoc Hin Hi Hm Hlater.
  set (headers := List.map headerOf (t_headerCells table)) in *.
  assert (Hix : rank2025Index (resolveColumns headers) = Z.of_nat i).
  { unfold resolveColumns.
    rewrite (scanHeaders_rank2025_last headers noIndices 0 i h Hi Hm Hlater). lia. }
  split; [exact Hix|].
  intros cells firmCell row Hfrom.
  split; [exact (extraction_complete page document table cells firmCell row Hdoc Hin Hfrom)|].
  destruct Hfrom as (_ & _ & _ & ->). fold headers.
  rewrite buildRow_rank2025, Hix.
  destruct (Z.of_nat i =? -1)%Z eqn:E; [apply Z.eqb_eq in E; lia|].
  unfold cellAt. destruct (Z.of_nat i <? 0)%Z eqn:E'; [apply Z.ltb_lt in E'; lia|].
  rewrite Nat2Z.id. reflexivity.
Qed.

(** C6: with a comma in the firm text (the trimmed text of the firm cell),
    [companyName] is the trimmed text before the first comma and [location]
    is what follows the first comma, cut at its commas, each piece trimmed,
    joined by ", "; without a comma, [companyName] is the whole text and
    [location] is empty.  The "Company Name" and "Location" of every row of
    an extraction are these two values for the firm cell of the body row it
    was made from, and every body row with a firm cell yields such a row. *)
Theorem C6_firm_split (firmText : jsstring) :
  (includes firmText (js ",") = true ->
     parseFirm firmText
     = (trim (beforeFirstComma firmText),
        join (js ", ") (List.map trim (split (ch ",") (afterFirstComma firmText)))))
  /\ (includes firmText (js ",") = false -> parseFirm firmText = (firmText, []))
  /\ (forall page document d row,
        tablesDoc page = Ok document ->
        extractTableData page = Ok (Some d) ->
        In row (pd_data d) ->
        exists table cells firmCell,
          In table document
          /\ extractedFrom table cells firmCell row
          /\ row !! "Company Name" = Some (fst (parseFirm (trim firmCell)))
          /\ row !! "Location" = Some (snd (parseFirm (trim firmCell))))
  /\ (forall page document table cells firmCell row,
        tablesDoc page = Ok document ->
        In table document ->
        extractedFrom table cells firmCell row ->
        (exists d, extractTableData page = Ok (Some d) /\ In row (pd_data d))
        /\ row !! "Company Name" = Some (fst (parseFirm (trim firmCell)))
        /\ row !! "Location" = Some (snd (parseFirm (trim firmCell)))).
Proof.
  split; [|split; [|split]].
  - unfold parseFirm. intros H. rewrite H.
    rewrite (split_first_comma _ H). cbn [List.map List.hd slice1 List.tl List.length].
    destruct (List.map trim (split (ch ",") (afterFirstComma firmText))) as [|p ps] eqn:Hps.
    + apply (f_equal (@List.length jsstring)) in Hps. rewrite List.length_map in Hps.
      destruct (split (ch ",") (afterFirstComma firmText)) eqn:Hs; [|discriminate].
      exfalso. exact (split_nonempty _ _ Hs).
    + reflexivity.
  - unfold parseFirm. intros H. rewrite H. reflexivity.
  - intros page document d row Hdoc Hd Hrow.
    pose proof (proj1 (extraction_rows page document d row Hdoc Hd) Hrow)
      as (table & cells & firmCell & Hin & Hfrom).
    exists table, cells, firmCell. split; [exact Hin|]. split; [exact Hfrom|].
    destruct Hfrom as (_ & _ & _ & ->). apply buildRow_firm.
  - intros page document table cells firmCell row Hdoc Hin Hfrom.
    split; [exact (extraction_complete page document table cells firmCell row
                     Hdoc Hin Hfrom)|].
    destruct Hfrom as (_ & _ & _ & ->). apply buildRow_firm.
Qed.

(** ** Pagination and page counts *)

Lemma crawlToplistPage_pages site url listName r :
  crawlToplistPage site url listName = Ok (Some r) ->
  exists page paginationLinks,
    site url = Ok page
    /\ getPaginationLinks page = Ok paginationLinks
    /\ paginatedPages r = (List.length paginationLinks + 1)%nat.
Proof.
  unfold crawlToplistPage.
  destruct (site url) as [page|e] eqn:Hpage; cbn [tryCatch bindExc]; [|discriminate].
  destruct (waitForCloudflareChallenge page) as [b|e]; cbn [tryCatch bindExc]; [|discriminate].
  destruct (getPaginationLinks page) as [paginationLinks|e] eqn:Hlinks;
    cbn [tryCatch bindExc]; [|discriminate].
  destruct (extractTableData page) as [mainPageData|e]; cbn [tryCatch bindExc];
    [|discriminate].
  destruct (if (0 <? List.length paginationLinks)%nat
            then crawlPaginationPages site (pushPageData [] mainPageData) paginationLinks
            else Ok (pushPageData [] mainPageData)) as [allData|e];
    cbn [tryCatch bindExc]; [|discriminate].
  destruct (0 <? List.length allData)%nat; cbn [tryCatch]; [|discriminate].
  intros [= <-]. exists page, paginationLinks. split; [reflexivity|]. split; [exact Hlinks|].
  simpl. destruct (0 <? List.length paginationLinks)%nat eqn:E; [reflexivity|].
  apply Nat.ltb_ge in E. lia.
Qed.

(** C4: a returned result counts one page more than the pagination links
    resolved on the main page, whatever happened when those links were
    visited; without pagination links it counts one page. *)
Theorem C4_page_count (site : Site) (url listName : jsstring) (r : ToplistResult) :
  crawlToplistPage site url listName = Ok (Some r) ->
  exists page paginationLinks,
    site url = Ok page
    /\ getPaginationLinks page = Ok paginationLinks
    /\ paginatedPages r = (List.length paginationLinks + 1)%nat
    /\ (paginationLinks = [] -> paginatedPages r = 1%nat).
Proof.
  intros H. destruct (crawlToplistPage_pages _ _ _ _ H) as (page & links & Hp & Hl & Hn).
  exists page, links. repeat split; try assumption.
  intros ->. exact Hn.
Qed.

(** ** Link discovery *)

Lemma pushToplistAnchors_app anchors :
  forall links, pushToplistAnchors links anchors = links ++ qualifyingLinks anchors.
Proof.
  unfold qualifyingLinks.
  induction anchors as [|a rest IH]; intros links; simpl; [rewrite app_nil_r; reflexivity|].
  destruct (nonEmpty (a_href a) && includes (a_href a) (js "toplists")); simpl.
  - rewrite IH, <- app_assoc. reflexivity.
  - apply IH.
Qed.

Lemma qualifyingLinks_qualify anchors :
  Forall (fun link => includes (href link) (js "toplists") = true) (qualifyingLinks anchors).
Proof.
  unfold qualifyingLinks.
  induction anchors as [|a rest IH]; simpl; [constructor|].
  destruct (nonEmpty (a_href a) && includes (a_href a) (js "toplists")) eqn:E; [|exact IH].
  simpl. constructor; [|exact IH]. simpl. apply andb_true_iff in E. apply E.
Qed.

Lemma pushFallbackAnchors_qualify anchors :
  forall links,
    Forall (fun link => includes (href link) (js "toplists") = true) links ->
    Forall (fun link => includes (href link) (js "toplists") = true)
           (pushFallbackAnchors links anchors).
Proof.
  induction anchors as [|a rest IH]; intros links H; simpl; [exact H|].
  destruct (nonEmpty (a_href a) && includes (a_href a) (js "toplists")
            && negb (endsWith (a_href a) (js "/toplists"))) eqn:E; [|apply IH; exact H].
  apply IH. apply Forall_app. split; [exact H|].
  constructor; [|constructor]. simpl.
  apply andb_true_iff in E. destruct E as [E _].
  apply andb_true_iff in E. apply E.
Qed.

Section Selectors.

Variable querySelectorAll : string -> list Anchor.

Lemma trySelectors_step selector rest :
  trySelectors querySelectorAll [] (selector :: rest)
  = if (0 <? List.length (qualifyingLinks (querySelectorAll selector)))%nat
    then qualifyingLinks (querySelectorAll selector)
    else trySelectors querySelectorAll [] rest.
Proof.
  simpl. rewrite pushToplistAnchors_app. simpl.
  destruct (0 <? List.length (querySelectorAll selector))%nat eqn:E.
  - destruct (0 <? List.length (qualifyingLinks (querySelectorAll selector)))%nat eqn:E';
      [reflexivity|].
    apply Nat.ltb_ge in E'.
    destruct (qualifyingLinks (querySelectorAll selector)); [reflexivity|simpl in E'; lia].
  - apply Nat.ltb_ge in E.
    destruct (querySelectorAll selector); [reflexivity|simpl in E; lia].
Qed.

Lemma trySelectors_skip pre :
  forall rest,
    Forall (fun s => qualifyingLinks (querySelectorAll s) = []) pre ->
    trySelectors querySelectorAll [] (pre ++ rest) = trySelectors querySelectorAll [] rest.
Proof.
  induction pre as [|s pre IH]; intros rest H; [reflexivity|].
  apply Forall_cons in H. destruct H as [Hs Hpre].
  rewrite <- app_comm_cons, trySelectors_step, Hs. simpl. apply IH. exact Hpre.
Qed.

Lemma trySelectors_qualify sels :
  Forall (fun link => includes (href link) (js "toplists") = true)
         (trySelectors querySelectorAll [] sels).
Proof.
  induction sels as [|s rest IH]; [constructor|].
  rewrite trySelectors_step.
  destruct (0 <? List.length (qualifyingLinks (querySelectorAll s)))%nat; [|exact IH].
  apply qualifyingLinks_qualify.
Qed.

Lemma collectLinks_qualify :
  Forall (fun link => includes (href link) (js "toplists") = true)
         (collectLinks querySelectorAll).
Proof.
  unfold collectLinks.
  destruct (List.length (trySelectors querySelectorAll [] selectors) =? 0)%nat.
  - apply pushFallbackAnchors_qualify, trySelectors_qualify.
  - apply trySelectors_qualify.
Qed.

End Selectors.

Lemma removeDuplicates_keeps (P : LinkRef -> Prop) linkArray :
  forall seenUrls uniqueLinks,
    Forall P uniqueLinks -> Forall P linkArray ->
    Forall P (removeDuplicates seenUrls uniqueLinks linkArray).
Proof.
  clear toUpperCase toLowerCase.
  induction linkArray as [|link rest IH]; intros seenUrls uniqueLinks Hu Hl; simpl;
    [exact Hu|].
  apply Forall_cons in Hl. destruct Hl as [Hlink Hrest].
  destruct (bool_decide (href link ∈ seenUrls)).
  - apply IH; assumption.
  - apply IH; [|exact Hrest]. apply Forall_app. split; [exact Hu|].
    constructor; [exact Hlink|constructor].
Qed.

Lemma removeDuplicates_NoDup linkArray :
  forall seenUrls uniqueLinks,
    NoDup (List.map href uniqueLinks) ->
    (forall u, u ∈ List.map href uniqueLinks -> u ∈ seenUrls) ->
    NoDup (List.map href (removeDuplicates seenUrls uniqueLinks linkArray)).
Proof.
  clear toUpperCase toLowerCase.
  induction linkArray as [|link rest IH]; intros seenUrls uniqueLinks Hnd Hseen; simpl;
    [exact Hnd|].
  destruct (bool_decide (href link ∈ seenUrls)) eqn:E.
  - apply IH; assumption.
  - apply bool_decide_eq_false in E. apply IH.
    + rewrite List.map_app. apply NoDup_app. split; [exact Hnd|]. split.
      * intros u Hu Hin. simpl in Hin. apply list_elem_of_singleton in Hin. subst u.
        apply E, Hseen, Hu.
      * simpl. apply NoDup_singleton.
    + intros u Hu. rewrite List.map_app in Hu. apply elem_of_app in Hu.
      destruct Hu as [Hu|Hu]; [set_solver|].
      simpl in Hu. apply list_elem_of_singleton in Hu. set_solver.
Qed.

Lemma removeDuplicates_firstOccurrences linkArray :
  forall earlier seenUrls uniqueLinks,
    (forall u, u ∈ seenUrls <-> u ∈ List.map href earlier) ->
    removeDuplicates seenUrls uniqueLinks linkArray
    = uniqueLinks
      ++ List.concat
           (imap (fun i link =>
                    if bool_decide
                         (href link ∈
                            List.map href (take (List.length earlier + i) (earlier ++ linkArray)))
                    then [] else [link])
                 linkArray).
Proof.
  clear toUpperCase toLowerCase.
  induction linkArray as [|link rest IH]; intros earlier seenUrls uniqueLinks Hseen;
    [simpl; rewrite app_nil_r; reflexivity|].
  cbn [removeDuplicates imap List.concat].
  rewrite Nat.add_0_r, take_app_length.
  assert (Hext :
    imap ((fun i link0 =>
             if bool_decide
                  (href link0 ∈
                     List.map href (take (List.length earlier + i) (earlier ++ link :: rest)))
             then [] else [link0]) ∘ S) rest
    = imap (fun i link0 =>
              if bool_decide
                   (href link0 ∈
                      List.map href
                        (take (List.length (earlier ++ [link]) + i) ((earlier ++ [link]) ++ rest)))
              then [] else [link0]) rest).
  { apply imap_ext. intros i x _. simpl.
    rewrite <- app_assoc, List.length_app. simpl.
    replace (List.length earlier + 1 + i)%nat with (List.length earlier + S i)%nat by lia.
    reflexivity. }
  rewrite Hext.
  rewrite (bool_decide_ext _ _ (Hseen (href link))).
  destruct (bool_decide (href link ∈ List.map href earlier)) eqn:E.
  - apply bool_decide_eq_true in E. apply IH.
    intros u. rewrite List.map_app, elem_of_app, <- Hseen. simpl.
    rewrite list_elem_of_singleton. split; [tauto|].
    intros [H| ->]; [exact H|]. apply Hseen, E.
  - rewrite (IH (earlier ++ [link]) ({[href link]} ∪ seenUrls) (uniqueLinks ++ [link])).
    + rewrite <- app_assoc. reflexivity.
    + intros u. rewrite List.map_app, elem_of_app, <- Hseen. simpl.
      rewrite list_elem_of_singleton. set_solver.
Qed.

(** C3 (amended): the selectors are tried in order and the first one with
    at least one qualifying anchor (a non-empty resolved URL containing
    "toplists") wins: the links returned are its qualifying anchors,
    deduplicated, and no later selector is consulted.  Every link returned,
    by a selector or by the fallback, has "toplists" in its URL. *)
Theorem C3_first_qualifying_strategy_wins (querySelectorAll : string -> list Anchor) :
  (forall pre selector post,
      selectors = pre ++ selector :: post ->
      Forall (fun s => qualifyingLinks (querySelectorAll s) = []) pre ->
      qualifyingLinks (querySelectorAll selector) <> [] ->
      toplistLinksOf querySelectorAll
      = removeDuplicates ∅ [] (qualifyingLinks (querySelectorAll selector)))
  /\ Forall (fun link => includes (href link) (js "toplists") = true)
            (toplistLinksOf querySelectorAll).
Proof.
  split.
  - intros pre selector post Hsel Hpre Hwin.
    unfold toplistLinksOf, collectLinks. rewrite Hsel.
    rewrite trySelectors_skip by exact Hpre.
    rewrite trySelectors_step.
    destruct (qualifyingLinks (querySelectorAll selector)) as [|l ls]; [contradiction|].
    reflexivity.
  - unfold toplistLinksOf. apply removeDuplicates_keeps; [constructor|].
    apply collectLinks_qualify.
Qed.

(** C8: the links returned carry pairwise distinct [href]s, and they are
    the collected links in first-encounter order: entry [i] of the
    collected list is kept exactly when no earlier entry has its [href]. *)
Theorem C8_links_deduplicated_in_order (querySelectorAll : string -> list Anchor) :
  NoDup (List.map href (toplistLinksOf querySelectorAll))
  /\ toplistLinksOf querySelectorAll = firstOccurrences (collectLinks querySelectorAll)
  /\ (forall page links,
        linksDoc page = Ok querySelectorAll ->
        getToplistLinks page = Ok links ->
        NoDup (List.map href links)
        /\ links = firstOccurrences (collectLinks querySelectorAll)).
Proof.
  clear toUpperCase toLowerCase.
  assert (Hnd : NoDup (List.map href (toplistLinksOf querySelectorAll))).
  { unfold toplistLinksOf. apply removeDuplicates_NoDup; [constructor|].
    intros u Hu. simpl in Hu. inversion Hu. }
  assert (Hfo : toplistLinksOf querySelectorAll
                = firstOccurrences (collectLinks querySelectorAll)).
  { unfold toplistLinksOf, firstOccurrences.
    rewrite (removeDuplicates_firstOccurrences _ [] ∅ []); [reflexivity|].
    intros u. simpl. set_solver. }
  split; [exact Hnd|]. split; [exact Hfo|].
  intros page links Hdoc. unfold getToplistLinks. rewrite Hdoc. simpl.
  intros [= <-]. split; [exact Hnd|exact Hfo].
Qed.

(** * Further properties *)

(** ** The challenge gate, beyond its failure paths *)

Lemma pollChallenge_existsb polls remaining :
  forall attempts,
    pollChallenge polls attempts remaining
    = Ok (existsb (pollClear polls) (seq attempts remaining)).
Proof.
  induction remaining as [|r IH]; intros attempts; [reflexivity|].
  cbn [pollChallenge seq existsb]. unfold pollClear at 1.
  destruct (polls attempts) as [s|msg]; cbn [tryCatch bindExc].
  - destruct (stillOnChallenge s); cbn [negb orb]; [apply IH|reflexivity].
  - cbn [negb orb]. apply IH.
Qed.

(** X1: once the first inspection has found a challenge, the gate answers
    [true] exactly when one of the polling rounds 0..59 succeeds and sees a
    body without text markers, and [false] (the timeout) exactly when none
    does; challenge-only elements play no part in the polling. *)
Theorem gate_clears_iff_some_poll_clear (page : Page) (s : Snapshot) :
  challengeCheck page = Ok s ->
  isChallenge s = true ->
  (waitForCloudflareChallenge page = Ok true <->
     exists k, (k < 60)%nat /\ pollClear (challengePolls page) k = true)
  /\ (waitForCloudflareChallenge page = Ok false <->
        forall k, (k < 60)%nat -> pollClear (challengePolls page) k = false).
Proof.
  intros Hcheck Hs.
  assert (Hgate : waitForCloudflareChallenge page
                  = Ok (existsb (pollClear (challengePolls page)) (seq 0 60))).
  { unfold waitForCloudflareChallenge. rewrite Hcheck.
    destruct (bodyWait page) as [[]|e]; cbn [tryCatch bindExc];
      rewrite Hs, pollChallenge_existsb; reflexivity. }
  rewrite Hgate. clear Hgate.
  assert (Hseq : forall k, In k (seq 0 60) <-> (k < 60)%nat).
  { intros k. rewrite in_seq. lia. }
  remember (seq 0 60) as rounds eqn:Hrounds. clear Hrounds.
  split; split.
  - intros H. injection H as H. apply existsb_exists in H.
    destruct H as (k & Hin & Hk). exists k. split; [apply Hseq, Hin|exact Hk].
  - intros (k & Hlt & Hk). f_equal. apply existsb_exists.
    exists k. split; [apply Hseq, Hlt|exact Hk].
  - intros H k Hlt. injection H as H.
    destruct (pollClear (challengePolls page) k) eqn:Hk; [|reflexivity].
    assert (Hex : existsb (pollClear (challengePolls page)) rounds = true).
    { apply existsb_exists. exists k. split; [apply Hseq, Hlt|exact Hk]. }
    rewrite Hex in H. discriminate.
  - intros Hall. f_equal.
    destruct (existsb (pollClear (challengePolls page)) rounds) eqn:Hex; [|reflexivity].
    apply existsb_exists in Hex. destruct Hex as (k & Hin & Hk).
    rewrite Hall in Hk by (apply Hseq, Hin). discriminate.
Qed.

(** ** Table extraction as a whole *)

(** X3: the rows of an extraction are the rows of the document's tables
    other than the pagination control, table after table in document order
    and body row after body row; [tablesFound] counts the tables that yield
    at least one row, and the result is [null] exactly when no table yields
    a row. *)
Theorem extraction_is_concatenation (page : Page) (document : list Table) :
  tablesDoc page = Ok document ->
  let perTable := List.map tableRows (List.filter isDataTable document) in
  extractTableData page
  = Ok (if hasRows (List.concat perTable)
        then Some {| pd_headers := canonicalHeaders;
                     pd_data := List.concat perTable;
                     tablesFound := List.length (List.filter hasRows perTable) |}
        else None).
Proof. apply extractTableData_concat. Qed.

Lemma omap_rowOf_length ix dataRows :
  (List.length (omap (rowOf ix) dataRows) <= List.length dataRows)%nat.
Proof.
  induction dataRows as [|cells rest IH]; [simpl; lia|].
  change (omap (rowOf ix) (cells :: rest))
    with (match rowOf ix cells with
          | Some row => row :: omap (rowOf ix) rest
          | None => omap (rowOf ix) rest
          end).
  destruct (rowOf ix cells); simpl; lia.
Qed.

Lemma tableRows_length table :
  (List.length (tableRows table) <= List.length (t_dataRows table))%nat.
Proof.
  unfold tableRows.
  destruct (List.length (List.map headerOf (t_headerCells table)) =? 0)%nat; [simpl; lia|].
  destruct (firmIndex _ =? -1)%Z; [simpl; lia|]. apply omap_rowOf_length.
Qed.

(** X5: an extraction never holds more rows than the data tables have
    body rows, never reports more tables than the document has data tables,
    and reports at most as many tables as rows. *)
Theorem extraction_bounds (page : Page) (document : list Table) (d : PageData) :
  tablesDoc page = Ok document ->
  extractTableData page = Ok (Some d) ->
  (List.length (pd_data d)
   <= list_sum (List.map (fun t => List.length (t_dataRows t))
                         (List.filter isDataTable document)))%nat
  /\ (tablesFound d <= List.length (List.filter isDataTable document))%nat
  /\ (tablesFound d <= List.length (pd_data d))%nat.
Proof.
  intros Hdoc. rewrite (extractTableData_concat page document Hdoc).
  destruct (hasRows _); [|discriminate]. intros [= <-]. simpl.
  induction (List.filter isDataTable document) as [|table rest IH]; simpl; [lia|].
  destruct IH as (IH1 & IH2 & IH3).
  pose proof (tableRows_length table) as Hlen.
  rewrite List.length_app.
  destruct (hasRows (tableRows table)) eqn:Hrows; simpl.
  - unfold hasRows in Hrows. apply Nat.ltb_lt in Hrows. lia.
  - lia.
Qed.

(** ** Column resolution as a whole *)

Lemma scanHeaders_firm_last headers :
  forall st idx (i : nat) h,
    headers !! i = Some h ->
    matchesFirm h = true ->
    (forall (j : nat) h', (i < j)%nat -> headers !! j = Some h' -> matchesFirm h' = false) ->
    firmIndex (scanHeaders st headers idx) = (idx + Z.of_nat i)%Z.
Proof.
  induction headers as [|h0 rest IH]; intros st idx i h Hi Hm Hlater; [discriminate|].
  destruct i as [|i]; simpl in *.
  - injection Hi as ->.
    rewrite scanHeaders_firm_none.
    + rewrite scanHeader_firm, Hm. lia.
    + intros h' Hin. apply list_elem_of_In, list_elem_of_lookup in Hin.
      destruct Hin as [j Hj]. apply (Hlater (S j)); [lia|exact Hj].
  - rewrite (IH _ _ i h Hi Hm); [lia|].
    intros j h' Hlt Hj. apply (Hlater (S j)); [lia|exact Hj].
Qed.

(** X6: when several headers normalize to "FIRM" or "FIRMS", the firm
    column is the last of them, and the row callback pushes a row exactly for
    the body rows with a cell in that column, made from that cell. *)
Theorem firm_column_last_match (headers : list jsstring) (i : nat) (h : jsstring) :
  headers !! i = Some h ->
  matchesFirm h = true ->
  (forall (j : nat) h', (i < j)%nat -> headers !! j = Some h' -> matchesFirm h' = false) ->
  firmIndex (resolveColumns headers) = Z.of_nat i
  /\ forall (rows : list Row) (cells : list jsstring),
       scanRow (resolveColumns headers) rows cells
       = match cells !! i with
         | Some firmCell => rows ++ [buildRow (resolveColumns headers) cells firmCell]
         | None => rows
         end.
Proof.
  intros Hi Hm Hlater.
  assert (Hix : firmIndex (resolveColumns headers) = Z.of_nat i).
  { unfold resolveColumns.
    rewrite (scanHeaders_firm_last headers noIndices 0 i h Hi Hm Hlater). lia. }
  split; [exact Hix|].
  intros rows cells. unfold scanRow, cellAt. rewrite Hix.
  destruct (Z.of_nat i <? 0)%Z eqn:E; [apply Z.ltb_lt in E; lia|].
  rewrite Nat2Z.id.
  destruct cells as [|c cells]; reflexivity.
Qed.

Lemma scanHeaders_rank2025_source headers :
  forall st idx,
    rank2025Index (scanHeaders st headers idx) = rank2025Index st
    \/ exists (k : nat) h,
         headers !! k = Some h /\ matchesRank2025 h = true
         /\ rank2025Index (scanHeaders st headers idx) = (idx + Z.of_nat k)%Z.
Proof.
  induction headers as [|h rest IH]; intros st idx; simpl; [left; reflexivity|].
  destruct (IH (scanHeader st h idx) (idx + 1)%Z) as [Hsame | (k & h' & Hk & Hm & Hres)].
  - rewrite Hsame, scanHeader_rank2025. destruct (matchesRank2025 h) eqn:Hm.
    + right. exists 0%nat, h. repeat split; [exact Hm|lia].
    + left. reflexivity.
  - right. exists (S k), h'. repeat split; [exact Hk|exact Hm|lia].
Qed.

Lemma scanHeaders_rank2024_source headers :
  forall st idx,
    rank2024Index (scanHeaders st headers idx) = rank2024Index st
    \/ exists (k : nat) h,
         headers !! k = Some h /\ takesRank2024 h = true
         /\ rank2024Index (scanHeaders st headers idx) = (idx + Z.of_nat k)%Z.
Proof.
  induction headers as [|h rest IH]; intros st idx; simpl; [left; reflexivity|].
  destruct (IH (scanHeader st h idx) (idx + 1)%Z) as [Hsame | (k & h' & Hk & Hm & Hres)].
  - rewrite Hsame, scanHeader_rank2024. destruct (takesRank2024 h) eqn:Hm; simpl.
    + destruct (rank2024Index st =? -1)%Z; [|left; reflexivity].
      right. exists 0%nat, h. repeat split; [exact Hm|lia].
    + left. reflexivity.
  - right. exists (S k), h'. repeat split; [exact Hk|exact Hm|lia].
Qed.

(** X7: each resolved column index is [-1] (unresolved) or the position
    of a header of the table, so a resolved column is always one of the
    table's own columns. *)
Theorem resolved_columns_in_range (headers : list jsstring) :
  let ix := resolveColumns headers in
  let inRange (i : Z) := i = (-1)%Z \/ (0 <= i < Z.of_nat (List.length headers))%Z in
  inRange (rank2025Index ix) /\ inRange (rank2024Index ix) /\ inRange (firmIndex ix).
Proof.
  simpl. unfold resolveColumns. repeat split.
  - destruct (scanHeaders_rank2025_source headers noIndices 0)
      as [-> | (k & h & Hk & _ & ->)]; [left; reflexivity|].
    right. apply lookup_lt_Some in Hk. lia.
  - destruct (scanHeaders_rank2024_source headers noIndices 0)
      as [-> | (k & h & Hk & _ & ->)]; [left; reflexivity|].
    right. apply lookup_lt_Some in Hk. lia.
  - destruct (scanHeaders_firm_source headers noIndices 0)
      as [-> | (k & h & Hk & _ & ->)]; [left; reflexivity|].
    right. apply lookup_lt_Some in Hk. lia.
Qed.

Lemma matchesFirm_not_rank h :
  matchesFirm h = true -> matchesRank2025 h = false /\ takesRank2024 h = false.
Proof.
  unfold matchesFirm, takesRank2024, matchesRank2024, matchesRank2025.
  intros H. apply orb_true_iff in H.
  destruct H as [H|H]; apply strictEq_eq in H; rewrite H; split; reflexivity.
Qed.

Lemma takesRank2024_not_rank2025 h :
  takesRank2024 h = true -> matchesRank2025 h = false.
Proof.
  unfold takesRank2024. intros H. apply andb_true_iff in H.
  destruct H as [_ H]. apply negb_true_iff in H. exact H.
Qed.

(** X8: no header serves two columns: the resolved indices of rank 2025,
    rank 2024 and firm are pairwise different. *)
Theorem resolved_columns_distinct (headers : list jsstring) :
  let ix := resolveColumns headers in
  (rank2025Index ix <> (-1)%Z -> rank2025Index ix <> rank2024Index ix)
  /\ (firmIndex ix <> (-1)%Z -> firmIndex ix <> rank2025Index ix)
  /\ (firmIndex ix <> (-1)%Z -> firmIndex ix <> rank2024Index ix).
Proof.
  simpl. unfold resolveColumns.
  destruct (scanHeaders_rank2025_source headers noIndices 0)
    as [H25 | (k25 & h25 & Hk25 & Hm25 & H25)];
    destruct (scanHeaders_rank2024_source headers noIndices 0)
      as [H24 | (k24 & h24 & Hk24 & Hm24 & H24)];
    destruct (scanHeaders_firm_source headers noIndices 0)
      as [Hf | (kf & hf & Hkf & Hmf & Hf)];
    rewrite H25, H24, Hf; simpl; repeat split; intros Hres Heq;
    try contradiction; try lia.
  all: try (assert (kf = k25) by lia; subst kf; rewrite Hk25 in Hkf; injection Hkf as <-;
            destruct (matchesFirm_not_rank _ Hmf) as [Hno _]; congruence).
  all: try (assert (kf = k24) by lia; subst kf; rewrite Hk24 in Hkf; injection Hkf as <-;
            destruct (matchesFirm_not_rank _ Hmf) as [_ Hno]; congruence).
  all: try (assert (k25 = k24) by lia; subst k25; rewrite Hk24 in Hk25; injection Hk25 as <-;
            pose proof (takesRank2024_not_rank2025 _ Hm24); congruence).
Qed.

(** ** The company name *)

Lemma trimStart_no_comma s : includes s (js ",") = false -> includes (trimStart s) (js ",") = false.
Proof.
  induction s as [|c s IH]; [reflexivity|].
  intros H. cbn [trimStart]. destruct (isSpace c); [|exact H].
  apply IH. rewrite includes_comma_cons in H. apply orb_false_iff in H. apply H.
Qed.

Lemma trimEnd_no_comma s : includes s (js ",") = false -> includes (trimEnd s) (js ",") = false.
Proof.
  induction s as [|c s IH]; [reflexivity|].
  intros H. rewrite includes_comma_cons in H. apply orb_false_iff in H.
  destruct H as [Hc Hs]. cbn [trimEnd].
  destruct (isSpace c && strictEq (trimEnd s) []); [reflexivity|].
  rewrite includes_comma_cons, Hc, (IH Hs). reflexivity.
Qed.

Lemma beforeFirstComma_no_comma s : includes (beforeFirstComma s) (js ",") = false.
Proof.
  induction s as [|c s IH]; [reflexivity|].
  cbn [beforeFirstComma]. destruct ((c =? ch ",")%N) eqn:Hc; [reflexivity|].
  rewrite includes_comma_cons, Hc, IH. reflexivity.
Qed.

Lemma parseFirm_name_no_comma firmText :
  includes (fst (parseFirm firmText)) (js ",") = false.
Proof.
  unfold parseFirm. destruct (includes firmText (js ",")) eqn:H; [|exact H].
  rewrite (split_first_comma _ H). simpl.
  apply trimEnd_no_comma, trimStart_no_comma, beforeFirstComma_no_comma.
Qed.

(** X9: the "Company Name" of a row never contains a comma. *)
Theorem company_name_has_no_comma (ix : Indices) (cells : list jsstring) (firmCell v : jsstring) :
  buildRow ix cells firmCell !! "Company Name" = Some v ->
  includes v (js ",") = false.
Proof.
  destruct (buildRow_firm ix cells firmCell) as [Hname _].
  rewrite Hname. intros [= <-]. apply parseFirm_name_no_comma.
Qed.

(** ** Pagination links *)

Lemma qualifyingLinks_sublist anchors :
  sublist (List.map href (qualifyingLinks anchors)) (List.map a_href anchors).
Proof.
  unfold qualifyingLinks.
  induction anchors as [|a rest IH]; simpl; [constructor|].
  destruct (nonEmpty (a_href a) && includes (a_href a) (js "toplists")); simpl.
  - apply sublist_skip. exact IH.
  - apply sublist_cons. exact IH.
Qed.

Lemma includes_nonEmpty s : includes s (js "toplists") = true -> nonEmpty s = true.
Proof. destruct s; [discriminate|reflexivity]. Qed.

Lemma qualifyingLinks_complete anchors a :
  In a anchors -> includes (a_href a) (js "toplists") = true ->
  In {| href := a_href a; text := trim (a_textContent a) |} (qualifyingLinks anchors).
Proof.
  intros Hin Hq. unfold qualifyingLinks.
  apply (List.in_map (fun a => {| href := a_href a; text := trim (a_textContent a) |})).
  apply List.filter_In. split; [exact Hin|].
  rewrite Hq, (includes_nonEmpty _ Hq). reflexivity.
Qed.

Lemma qualifyingLinks_length anchors :
  List.length (qualifyingLinks anchors)
  = List.length (List.filter (fun a => includes (a_href a) (js "toplists")) anchors).
Proof.
  unfold qualifyingLinks. rewrite List.length_map.
  induction anchors as [|a rest IH]; [reflexivity|]. cbn [List.filter].
  destruct (includes (a_href a) (js "toplists")) eqn:E.
  - rewrite (includes_nonEmpty _ E). cbn [andb List.length]. rewrite IH. reflexivity.
  - rewrite andb_false_r. exact IH.
Qed.

(** X10: the pagination links are exactly the anchors of the pagination
    control whose URL contains "toplists", in document order, each with its
    trimmed text; nothing is added, merged or reordered.  In particular
    their URLs form a subsequence of the anchors' URLs, and without a
    pagination control there are no links. *)
Theorem pagination_links_in_document_order (page : Page) (links : list LinkRef) :
  getPaginationLinks page = Ok links ->
  Forall (fun link => includes (href link) (js "toplists") = true) links
  /\ (paginationDoc page = Ok None -> links = [])
  /\ (forall anchors,
        paginationDoc page = Ok (Some anchors) ->
        links = qualifyingLinks anchors
        /\ List.length links
           = List.length (List.filter (fun a => includes (a_href a) (js "toplists")) anchors)
        /\ sublist (List.map href links) (List.map a_href anchors)
        /\ forall a, In a anchors -> includes (a_href a) (js "toplists") = true ->
                     In {| href := a_href a; text := trim (a_textContent a) |} links).
Proof.
  unfold getPaginationLinks.
  destruct (paginationDoc page) as [[anchors|]|e]; cbn [bindExc]; [| |discriminate].
  - rewrite pushToplistAnchors_app. simpl. intros [= <-].
    split; [apply qualifyingLinks_qualify|]. split; [discriminate|].
    intros anchors' [= <-]. split; [reflexivity|].
    split; [apply qualifyingLinks_length|].
    split; [apply qualifyingLinks_sublist|].
    apply qualifyingLinks_complete.
  - intros [= <-]. split; [constructor|]. split; [reflexivity|]. discriminate.
Qed.

(** ** Deduplication *)

Lemma find_app_first {A} (f : A -> bool) (l1 l2 : list A) :
  List.find f (l1 ++ l2)
  = match List.find f l1 with Some x => Some x | None => List.find f l2 end.
Proof.
  induction l1 as [|x l1 IH]; simpl; [reflexivity|].
  destruct (f x); [reflexivity|exact IH].
Qed.

Lemma findHref_None u links : findHref u links = None <-> u ∉ List.map href links.
Proof.
  clear toUpperCase toLowerCase.
  unfold findHref. induction links as [|x rest IH]; simpl.
  - split; [intros _ H; inversion H|reflexivity].
  - destruct (strictEq (href x) u) eqn:E.
    + apply strictEq_eq in E. split; [discriminate|]. intros H. exfalso. apply H.
      rewrite E. apply list_elem_of_here.
    + apply strictEq_neq in E. rewrite IH, not_elem_of_cons. split; [|tauto].
      intros H. split; [congruence|exact H].
Qed.

Lemma removeDuplicates_findHref linkArray :
  forall seenUrls uniqueLinks u,
    (forall v, v ∈ seenUrls <-> v ∈ List.map href uniqueLinks) ->
    findHref u (removeDuplicates seenUrls uniqueLinks linkArray)
    = match findHref u uniqueLinks with
      | Some x => Some x
      | None => findHref u linkArray
      end.
Proof.
  clear toUpperCase toLowerCase.
  induction linkArray as [|link rest IH]; intros seenUrls uniqueLinks u Hseen; simpl.
  - destruct (findHref u uniqueLinks); reflexivity.
  - destruct (bool_decide (href link ∈ seenUrls)) eqn:E.
    + apply bool_decide_eq_true in E. rewrite (IH _ _ _ Hseen).
      destruct (findHref u uniqueLinks) eqn:Hu; [reflexivity|].
      unfold findHref at 2. simpl.
      destruct (strictEq (href link) u) eqn:Heq; [|reflexivity].
      apply strictEq_eq in Heq. subst u.
      apply findHref_None in Hu. exfalso. apply Hu, Hseen, E.
    + apply bool_decide_eq_false in E. rewrite IH.
      * unfold findHref at 1. rewrite find_app_first. fold (findHref u uniqueLinks).
        destruct (findHref u uniqueLinks); [reflexivity|].
        unfold findHref at 2. simpl.
        destruct (strictEq (href link) u); reflexivity.
      * intros v. rewrite List.map_app, elem_of_app, <- Hseen. simpl.
        rewrite list_elem_of_singleton. set_solver.
Qed.

(** X11: deduplication loses no URL and keeps, for each URL, the first
    entry collected with it (so the first label seen): looking a URL up in
    the returned links and in the collected ones gives the same entry. *)
Theorem dedup_keeps_first_entry (querySelectorAll : string -> list Anchor) (u : jsstring) :
  findHref u (toplistLinksOf querySelectorAll) = findHref u (collectLinks querySelectorAll).
Proof.
  clear toUpperCase toLowerCase.
  unfold toplistLinksOf. rewrite removeDuplicates_findHref; [reflexivity|].
  intros v. simpl. set_solver.
Qed.

Lemma removeDuplicates_distinct linkArray :
  forall seenUrls uniqueLinks,
    (forall v, v ∈ seenUrls <-> v ∈ List.map href uniqueLinks) ->
    NoDup (List.map href (uniqueLinks ++ linkArray)) ->
    removeDuplicates seenUrls uniqueLinks linkArray = uniqueLinks ++ linkArray.
Proof.
  clear toUpperCase toLowerCase.
  induction linkArray as [|link rest IH]; intros seenUrls uniqueLinks Hseen Hnd; simpl;
    [rewrite app_nil_r; reflexivity|].
  assert (Hfresh : href link ∉ seenUrls).
  { rewrite Hseen. rewrite List.map_app in Hnd. apply NoDup_app in Hnd.
    destruct Hnd as (_ & Hdisj & _). intros Hin. apply (Hdisj _ Hin).
    simpl. apply list_elem_of_here. }
  rewrite bool_decide_eq_false_2 by exact Hfresh.
  rewrite IH.
  - rewrite <- app_assoc. reflexivity.
  - intros v. rewrite List.map_app, elem_of_app, <- Hseen. simpl.
    rewrite list_elem_of_singleton. set_solver.
  - rewrite <- app_assoc. exact Hnd.
Qed.

(** X12: links whose URLs are already pairwise different pass through
    the deduplication unchanged; hence deduplicating twice is the same as
    deduplicating once. *)
Theorem dedup_fixes_distinct_links (linkArray : list LinkRef) :
  (NoDup (List.map href linkArray) -> removeDuplicates ∅ [] linkArray = linkArray)
  /\ removeDuplicates ∅ [] (removeDuplicates ∅ [] linkArray) = removeDuplicates ∅ [] linkArray.
Proof.
  clear toUpperCase toLowerCase.
  assert (Hfix : forall l, NoDup (List.map href l) -> removeDuplicates ∅ [] l = l).
  { intros l Hnd. apply (removeDuplicates_distinct l ∅ []); [|exact Hnd].
    intros v. simpl. set_solver. }
  split; [apply Hfix|].
  apply Hfix. apply removeDuplicates_NoDup; [constructor|].
  intros v Hv. simpl in Hv. inversion Hv.
Qed.

(** ** The fallback scan *)

Lemma pushFallbackAnchors_app anchors :
  forall links, pushFallbackAnchors links anchors = links ++ fallbackLinks anchors.
Proof.
  unfold fallbackLinks.
  induction anchors as [|a rest IH]; intros links; simpl; [rewrite app_nil_r; reflexivity|].
  destruct (nonEmpty (a_href a) && includes (a_href a) (js "toplists")
            && negb (endsWith (a_href a) (js "/toplists"))); simpl.
  - rewrite IH, <- app_assoc. reflexivity.
  - apply IH.
Qed.

Lemma fallbackLinks_not_index anchors :
  Forall (fun link => endsWith (href link) (js "/toplists") = false) (fallbackLinks anchors).
Proof.
  unfold fallbackLinks.
  induction anchors as [|a rest IH]; simpl; [constructor|].
  destruct (nonEmpty (a_href a) && includes (a_href a) (js "toplists")
            && negb (endsWith (a_href a) (js "/toplists"))) eqn:E; [|exact IH].
  simpl. constructor; [|exact IH]. simpl.
  apply andb_true_iff in E. destruct E as [_ E]. apply negb_true_iff in E. exact E.
Qed.

(** X13: when no selector finds a qualifying anchor, the links returned
    are the deduplicated fallback links of all anchors of the document, and
    none of their URLs ends in "/toplists". *)
Theorem fallback_links_do_not_end_in_toplists (querySelectorAll : string -> list Anchor) :
  Forall (fun s => qualifyingLinks (querySelectorAll s) = []) selectors ->
  toplistLinksOf querySelectorAll
  = removeDuplicates ∅ [] (fallbackLinks (querySelectorAll "a"))
  /\ Forall (fun link => endsWith (href link) (js "/toplists") = false)
            (toplistLinksOf querySelectorAll).
Proof.
  intros Hnone.
  assert (Hcollect : collectLinks querySelectorAll = fallbackLinks (querySelectorAll "a")).
  { unfold collectLinks.
    rewrite <- (app_nil_r selectors), (trySelectors_skip querySelectorAll selectors [] Hnone).
    simpl. apply pushFallbackAnchors_app. }
  unfold toplistLinksOf. rewrite Hcollect. split; [reflexivity|].
  apply removeDuplicates_keeps; [constructor|apply fallbackLinks_not_index].
Qed.

(** ** One toplist, all its pages *)

Lemma waitForCloudflareChallenge_returns (page : Page) :
  exists b, waitForCloudflareChallenge page = Ok b.
Proof.
  unfold waitForCloudflareChallenge.
  destruct (pollChallenge_returns (challengePolls page) maxAttempts 0) as [b Hb].
  destruct (bodyWait page) as [[]|e]; cbn [tryCatch bindExc];
    (destruct (challengeCheck page) as [s|msg]; cbn [tryCatch bindExc]; [|eauto];
     destruct (isChallenge s); [rewrite Hb|]; cbn [tryCatch]; eauto).
Qed.

Lemma pushPageData_rows allData pageData :
  pushPageData allData pageData = allData ++ rowsOfExtraction (Ok pageData).
Proof.
  destruct pageData as [d|]; simpl; [reflexivity|rewrite app_nil_r; reflexivity].
Qed.

Lemma crawlPaginationPage_rows site allData paginationLink :
  crawlPaginationPage site allData paginationLink
  = Ok (allData ++ visitRows site paginationLink).
Proof.
  unfold crawlPaginationPage, visitRows.
  destruct (site (href paginationLink)) as [page|e]; cbn [tryCatch bindExc];
    [|rewrite app_nil_r; reflexivity].
  destruct (waitForCloudflareChallenge_returns page) as [b ->]. cbn [tryCatch bindExc].
  destruct (extractTableData_returns page) as [pageData ->]. cbn [tryCatch bindExc].
  rewrite pushPageData_rows. reflexivity.
Qed.

Lemma crawlPaginationPages_rows site links :
  forall allData,
    crawlPaginationPages site allData links
    = Ok (allData ++ List.concat (List.map (visitRows site) links)).
Proof.
  induction links as [|link rest IH]; intros allData; simpl;
    [rewrite app_nil_r; reflexivity|].
  rewrite crawlPaginationPage_rows. cbn [bindExc]. rewrite IH, <- app_assoc. reflexivity.
Qed.

Lemma crawlToplistPage_unfold site url listName page paginationLinks :
  site url = Ok page ->
  getPaginationLinks page = Ok paginationLinks ->
  let rows := rowsOfExtraction (extractTableData page)
              ++ List.concat (List.map (visitRows site) paginationLinks) in
  crawlToplistPage site url listName
  = Ok (if (0 <? List.length rows)%nat
        then Some {| listName := listName;
                     url := url;
                     headers := canonicalHeaders;
                     data := rows;
                     rowCount := List.length rows;
                     paginatedPages := (List.length paginationLinks + 1)%nat |}
        else None).
Proof.
  intros Hpage Hlinks rows. unfold crawlToplistPage.
  rewrite Hpage. cbn [tryCatch bindExc].
  destruct (waitForCloudflareChallenge_returns page) as [b ->]. cbn [tryCatch bindExc].
  rewrite Hlinks. cbn [tryCatch bindExc].
  subst rows. destruct (extractTableData_returns page) as [pageData ->].
  cbn [tryCatch bindExc]. rewrite pushPageData_rows, app_nil_l.
  set (rows := rowsOfExtraction (Ok pageData)
               ++ List.concat (List.map (visitRows site) paginationLinks)).
  assert (Hloop :
    (if (0 <? List.length paginationLinks)%nat
     then crawlPaginationPages site (rowsOfExtraction (Ok pageData)) paginationLinks
     else Ok (rowsOfExtraction (Ok pageData))) = Ok rows).
  { subst rows. destruct paginationLinks as [|l ls].
    - simpl. rewrite app_nil_r. reflexivity.
    - rewrite crawlPaginationPages_rows. reflexivity. }
  rewrite Hloop. cbn [tryCatch bindExc].
  assert (Hpages : (if (0 <? List.length paginationLinks)%nat
                    then (List.length paginationLinks + 1)%nat else 1%nat)
                   = (List.length paginationLinks + 1)%nat).
  { destruct paginationLinks; reflexivity. }
  rewrite Hpages. destruct (0 <? List.length rows)%nat; reflexivity.
Qed.

(** X14: with the main page loaded and its pagination links resolved, the
    rows of the result are the rows of the main page followed by the rows of
    each pagination page in link order, a page that cannot be reached or read
    adding none and leaving the others untouched; [rowCount] is their number
    and the result is [null] exactly when there is no row at all. *)
Theorem toplist_rows_are_page_rows_in_order
    (site : Site) (url listName : jsstring) (page : Page) (paginationLinks : list LinkRef) :
  site url = Ok page ->
  getPaginationLinks page = Ok paginationLinks ->
  let rows := rowsOfExtraction (extractTableData page)
              ++ List.concat (List.map (visitRows site) paginationLinks) in
  crawlToplistPage site url listName
  = Ok (if (0 <? List.length rows)%nat
        then Some {| listName := listName;
                     url := url;
                     headers := canonicalHeaders;
                     data := rows;
                     rowCount := List.length rows;
                     paginatedPages := (List.length paginationLinks + 1)%nat |}
        else None)
  /\ List.length rows
     = (List.length (rowsOfExtraction (extractTableData page))
        + list_sum (List.map (fun link => List.length (visitRows site link)) paginationLinks))%nat.
Proof.
  intros Hpage Hlinks rows. split; [apply crawlToplistPage_unfold; assumption|].
  subst rows. rewrite List.length_app. f_equal. clear Hlinks.
  induction paginationLinks as [|l ls IH]; simpl; [reflexivity|].
  rewrite List.length_app, IH. reflexivity.
Qed.

Lemma crawlToplistPage_pagination_fails site url listName page e :
  site url = Ok page -> getPaginationLinks page = Throw e ->
  crawlToplistPage site url listName = Ok None.
Proof.
  intros Hpage Hlinks. unfold crawlToplistPage. rewrite Hpage. cbn [tryCatch bindExc].
  destruct (waitForCloudflareChallenge_returns page) as [b ->]. cbn [tryCatch bindExc].
  rewrite Hlinks. reflexivity.
Qed.

Lemma crawlToplistPage_returns site url listName :
  exists r, crawlToplistPage site url listName = Ok r.
Proof.
  destruct (site url) as [page|e] eqn:Hpage.
  - destruct (getPaginationLinks page) as [links|e] eqn:Hlinks.
    + rewrite (crawlToplistPage_unfold site url listName page links Hpage Hlinks). eauto.
    + rewrite (crawlToplistPage_pagination_fails _ _ _ _ _ Hpage Hlinks). eauto.
  - unfold crawlToplistPage. rewrite Hpage. cbn [tryCatch bindExc]. eauto.
Qed.

(** X15: [crawlToplistPage] never rejects; it returns [null] when the
    navigation to the list fails and when the pagination control cannot be
    inspected, even if the main page holds rows. *)
Theorem toplist_crawl_never_rejects (site : Site) (url listName : jsstring) :
  (exists r, crawlToplistPage site url listName = Ok r)
  /\ (forall e, site url = Throw e -> crawlToplistPage site url listName = Ok None)
  /\ (forall page e,
        site url = Ok page -> getPaginationLinks page = Throw e ->
        crawlToplistPage site url listName = Ok None).
Proof.
  split; [apply crawlToplistPage_returns|]. split.
  - intros e He. unfold crawlToplistPage. rewrite He. reflexivity.
  - intros page e. apply crawlToplistPage_pagination_fails.
Qed.

Lemma visitRows_keys site link :
  Forall (fun row : Row => dom row ⊆ canonicalKeys) (visitRows site link).
Proof.
  unfold visitRows. destruct (site (href link)) as [page|e]; [|constructor].
  unfold rowsOfExtraction.
  destruct (extractTableData page) as [[d|]|e] eqn:E; try constructor.
  apply (extractTableData_rows _ page d); [|exact E]. intros. apply buildRow_dom.
Qed.

Lemma crawlToplistPage_invariants
    (site : Site) (address name : jsstring) (r : ToplistResult) :
  crawlToplistPage site address name = Ok (Some r) ->
  url r = address
  /\ listName r = name
  /\ headers r = canonicalHeaders
  /\ rowCount r = List.length (data r)
  /\ (0 < rowCount r)%nat
  /\ Forall (fun row : Row => dom row ⊆ canonicalKeys) (data r).
Proof.
  intros H.
  destruct (site address) as [page|e] eqn:Hpage;
    [|unfold crawlToplistPage in H; rewrite Hpage in H; discriminate H].
  destruct (getPaginationLinks page) as [links|e] eqn:Hlinks;
    [|rewrite (crawlToplistPage_pagination_fails _ _ _ _ _ Hpage Hlinks) in H; discriminate H].
  rewrite (crawlToplistPage_unfold site address name page links Hpage Hlinks) in H.
  destruct (0 <? List.length _)%nat eqn:Hlen; [|discriminate H].
  injection H as <-. simpl. apply Nat.ltb_lt in Hlen.
  repeat split; try reflexivity; try exact Hlen.
  apply Forall_app. split.
  - unfold rowsOfExtraction. destruct (extractTableData page) as [[d|]|e] eqn:E;
      try constructor.
    apply (extractTableData_rows _ page d); [|exact E]. intros. apply buildRow_dom.
  - clear Hlinks Hlen. induction links as [|l ls IH]; simpl; [constructor|].
    apply Forall_app. split; [apply visitRows_keys|exact IH].
Qed.

(** X16: a result that is returned echoes the URL and the name it was
    asked for, holds at least one row, has [rowCount] equal to the number of
    its rows, and all its rows, from whichever page, carry only canonical
    keys. *)
Theorem toplist_result_invariants
    (site : Site) (address name : jsstring) (r : ToplistResult) :
  crawlToplistPage site address name = Ok (Some r) ->
  url r = address
  /\ listName r = name
  /\ headers r = canonicalHeaders
  /\ rowCount r = List.length (data r)
  /\ (0 < rowCount r)%nat
  /\ Forall (fun row : Row => dom row ⊆ canonicalKeys) (data r).
Proof. apply crawlToplistPage_invariants. Qed.

(** ** The whole crawl *)

Lemma crawlToplistLinks_omap site toplistLinks :
  forall allResults,
    crawlToplistLinks site allResults toplistLinks
    = Ok (allResults ++ omap (listResult site) toplistLinks).
Proof.
  induction toplistLinks as [|link rest IH]; intros allResults;
    [simpl; rewrite app_nil_r; reflexivity|].
  change (omap (listResult site) (link :: rest))
    with (match listResult site link with
          | Some r => r :: omap (listResult site) rest
          | None => omap (listResult site) rest
          end).
  cbn [crawlToplistLinks]. unfold listResult at 1.
  destruct (crawlToplistPage_returns site (href link) (text link)) as [result ->].
  cbn [bindExc]. rewrite IH.
  destruct result as [r|]; [rewrite <- app_assoc|]; reflexivity.
Qed.

(** X17: once the home page has passed the gate and the index page has
    been read, the crawl returns, in discovery order, the result of every
    discovered toplist that yields one; a toplist that fails or is empty is
    left out and does not stop the others. *)
Theorem crawl_results_in_discovery_order
    (site : Site) (homeBodyWait : Exc unit) (home index : Page)
    (querySelectorAll : string -> list Anchor) :
  site (js "https://www.enr.com/") = Ok home ->
  homeBodyWait = Ok tt ->
  waitForCloudflareChallenge home = Ok true ->
  site (js "https://www.enr.com/toplists") = Ok index ->
  linksDoc index = Ok querySelectorAll ->
  crawlENRToplists site homeBodyWait
  = Ok (omap (listResult site) (toplistLinksOf querySelectorAll)).
Proof.
  intros Hhome Hbody Hgate Hindex Hlinks. unfold crawlENRToplists.
  rewrite Hhome, Hbody. cbn [tryCatch bindExc]. rewrite Hgate. cbn [tryCatch bindExc negb].
  rewrite Hindex. cbn [tryCatch bindExc].
  destruct (waitForCloudflareChallenge_returns index) as [b ->]. cbn [tryCatch bindExc].
  unfold getToplistLinks. rewrite Hlinks. cbn [tryCatch bindExc].
  rewrite crawlToplistLinks_omap. reflexivity.
Qed.

(** X18: the crawl rejects only for a failure on the way to the list of
    toplists: the home page or the index page cannot be loaded, the body of
    the home page does not appear, the home page does not pass the gate, or
    the anchors of the index cannot be read.  No toplist can make it
    reject. *)
Theorem crawl_rejects_only_before_the_lists
    (site : Site) (homeBodyWait : Exc unit) (error : string) :
  crawlENRToplists site homeBodyWait = Throw error ->
  site (js "https://www.enr.com/") = Throw error
  \/ homeBodyWait = Throw error
  \/ (exists home, site (js "https://www.enr.com/") = Ok home
                   /\ waitForCloudflareChallenge home = Ok false
                   /\ error = "Failed to pass Cloudflare challenge")
  \/ site (js "https://www.enr.com/toplists") = Throw error
  \/ (exists index, site (js "https://www.enr.com/toplists") = Ok index
                    /\ linksDoc index = Throw error).
Proof.
  unfold crawlENRToplists.
  destruct (site (js "https://www.enr.com/")) as [home|e] eqn:Hhome; cbn [tryCatch bindExc];
    [|intros [= ->]; left; reflexivity].
  destruct homeBodyWait as [[]|e]; cbn [tryCatch bindExc];
    [|intros [= ->]; right; left; reflexivity].
  destruct (waitForCloudflareChallenge_returns home) as [passed Hgate]. rewrite Hgate.
  cbn [tryCatch bindExc]. destruct passed; cbn [negb tryCatch].
  - destruct (site (js "https://www.enr.com/toplists")) as [index|e] eqn:Hindex;
      cbn [tryCatch bindExc]; [|intros [= ->]; do 3 right; left; reflexivity].
    destruct (waitForCloudflareChallenge_returns index) as [b ->]. cbn [tryCatch bindExc].
    unfold getToplistLinks.
    destruct (linksDoc index) as [q|e] eqn:Hlinks; cbn [tryCatch bindExc].
    + rewrite crawlToplistLinks_omap. discriminate.
    + intros [= ->]. do 4 right. exists index. split; [reflexivity|exact Hlinks].
  - intros [= <-]. right. right. left. exists home. repeat split. exact Hgate.
Qed.

(** ** File names *)

Lemma startsWith_dash c s : startsWith (c :: s) (js "-") = (c =? ch "-")%N.
Proof.
  change (js "-") with [ch "-"]. cbn [startsWith]. rewrite (N.eqb_sym (ch "-") c).
  destruct s; cbn [startsWith]; apply andb_true_r.
Qed.

Lemma includes_double_dash s : includes s (js "--") = negb (noDoubleDash s).
Proof.
  induction s as [|c s IH]; [reflexivity|].
  change (includes (c :: s) (js "--"))
    with (startsWith (c :: s) [ch "-"; ch "-"] || includes s (js "--")).
  change (startsWith (c :: s) [ch "-"; ch "-"])
    with ((ch "-" =? c)%N && startsWith s (js "-")).
  cbn [noDoubleDash]. rewrite IH, (N.eqb_sym (ch "-") c).
  destruct (c =? ch "-")%N, (startsWith s (js "-")), (noDoubleDash s); reflexivity.
Qed.

Lemma replaceNonAlnum_chars s : allChars isAlnumOrDash (replaceNonAlnum s) = true.
Proof.
  unfold replaceNonAlnum, isAlnumOrDash.
  induction s as [|c s IH]; [reflexivity|]. cbn [List.map allChars]. rewrite IH.
  destruct (isAlnum c) eqn:E; [rewrite E; reflexivity|].
  rewrite N.eqb_refl, orb_true_r. reflexivity.
Qed.

Lemma collapseDashes_chars P s :
  allChars P s = true -> allChars P (collapseDashes s) = true.
Proof.
  induction s as [|c s IH]; [reflexivity|].
  cbn [allChars collapseDashes]. intros H. apply andb_true_iff in H. destruct H as [Hc Hs].
  destruct ((c =? ch "-")%N && startsWith s (js "-")); [apply IH, Hs|].
  cbn [allChars]. rewrite Hc, (IH Hs). reflexivity.
Qed.

Lemma collapseDashes_startsWith s :
  startsWith (collapseDashes s) (js "-") = startsWith s (js "-").
Proof.
  induction s as [|c s IH]; [reflexivity|].
  cbn [collapseDashes]. destruct ((c =? ch "-")%N && startsWith s (js "-")) eqn:E.
  - apply andb_true_iff in E. destruct E as [Hc Hs].
    rewrite IH, Hs, startsWith_dash, Hc. reflexivity.
  - rewrite !startsWith_dash. reflexivity.
Qed.

Lemma collapseDashes_noDoubleDash s : noDoubleDash (collapseDashes s) = true.
Proof.
  induction s as [|c s IH]; [reflexivity|].
  cbn [collapseDashes]. destruct ((c =? ch "-")%N && startsWith s (js "-")) eqn:E; [exact IH|].
  cbn [noDoubleDash]. rewrite collapseDashes_startsWith, E, IH. reflexivity.
Qed.

Lemma dropLeadingDash_chars P s :
  allChars P s = true -> allChars P (dropLeadingDash s) = true.
Proof.
  destruct s as [|c s]; [reflexivity|]. cbn [dropLeadingDash].
  destruct ((c =? ch "-")%N); [|trivial].
  cbn [allChars]. intros H. apply andb_true_iff in H. apply H.
Qed.

Lemma dropLeadingDash_clean s :
  noDoubleDash s = true ->
  noDoubleDash (dropLeadingDash s) = true /\ startsWith (dropLeadingDash s) (js "-") = false.
Proof.
  destruct s as [|c s]; [split; reflexivity|]. cbn [dropLeadingDash noDoubleDash].
  intros H. apply andb_true_iff in H. destruct H as [Hc Hs].
  destruct ((c =? ch "-")%N) eqn:E.
  - split; [exact Hs|]. simpl in Hc. apply negb_true_iff in Hc. exact Hc.
  - split; [cbn [noDoubleDash]; rewrite E, Hs; reflexivity|].
    rewrite startsWith_dash. exact E.
Qed.

Lemma dropTrailingDash_chars P s :
  allChars P s = true -> allChars P (dropTrailingDash s) = true.
Proof.
  induction s as [|c s IH]; [reflexivity|].
  cbn [allChars dropTrailingDash]. intros H. apply andb_true_iff in H.
  destruct H as [Hc Hs].
  destruct ((c =? ch "-")%N && strictEq s []); [reflexivity|].
  cbn [allChars]. rewrite Hc, (IH Hs). reflexivity.
Qed.

Lemma dropTrailingDash_startsWith s :
  startsWith (dropTrailingDash s) (js "-") = true -> startsWith s (js "-") = true.
Proof.
  destruct s as [|c s]; [discriminate|]. cbn [dropTrailingDash].
  destruct ((c =? ch "-")%N && strictEq s []); [discriminate|].
  rewrite !startsWith_dash. trivial.
Qed.

Lemma dropTrailingDash_empty s :
  dropTrailingDash s = [] -> s = [] \/ s = js "-".
Proof.
  destruct s as [|c s]; [left; reflexivity|]. cbn [dropTrailingDash].
  destruct ((c =? ch "-")%N && strictEq s []) eqn:E; [|discriminate].
  apply andb_true_iff in E. destruct E as [Hc Hs].
  apply N.eqb_eq in Hc. apply strictEq_eq in Hs. subst. right. reflexivity.
Qed.

Lemma dropTrailingDash_clean s :
  noDoubleDash s = true ->
  noDoubleDash (dropTrailingDash s) = true /\ endsWith (dropTrailingDash s) (js "-") = false.
Proof.
  induction s as [|c s IH]; [split; reflexivity|].
  cbn [noDoubleDash dropTrailingDash]. intros H. apply andb_true_iff in H.
  destruct H as [Hc Hs]. destruct (IH Hs) as [IH1 IH2].
  destruct ((c =? ch "-")%N && strictEq s []) eqn:E; [split; reflexivity|].
  split.
  - cbn [noDoubleDash]. rewrite IH1, andb_true_r.
    destruct ((c =? ch "-")%N) eqn:Ec; [|reflexivity]. cbn [andb] in *.
    destruct (startsWith (dropTrailingDash s) (js "-")) eqn:Es; [|reflexivity].
    apply dropTrailingDash_startsWith in Es. rewrite Es in Hc. discriminate.
  - cbn [endsWith]. fold (endsWith (dropTrailingDash s) (js "-")). rewrite IH2, orb_false_r.
    destruct (strictEq (c :: dropTrailingDash s) (js "-")) eqn:Eq; [|reflexivity].
    apply strictEq_eq in Eq. change (js "-") with [ch "-"] in Eq. injection Eq as -> Hd.
    rewrite N.eqb_refl in E. cbn [andb] in E, Hc.
    destruct (dropTrailingDash_empty _ Hd) as [-> | ->].
    + discriminate E.
    + vm_compute in Hc. discriminate Hc.
Qed.

Lemma sanitized_name_chars name : allChars isAlnumOrDash (sanitize name) = true.
Proof.
  unfold sanitize, stripEdgeDashes.
  apply dropTrailingDash_chars, dropLeadingDash_chars, collapseDashes_chars,
    replaceNonAlnum_chars.
Qed.

(** X19: the name derived from a list name holds only letters, digits and
    dashes, no two dashes in a row, and neither starts nor ends with a
    dash. *)
Theorem sanitized_name_is_clean (name : jsstring) :
  allChars isAlnumOrDash (sanitize name) = true
  /\ includes (sanitize name) (js "--") = false
  /\ startsWith (sanitize name) (js "-") = false
  /\ endsWith (sanitize name) (js "-") = false.
Proof.
  unfold sanitize, stripEdgeDashes.
  pose proof (collapseDashes_noDoubleDash (replaceNonAlnum name)) as Hnd.
  destruct (dropLeadingDash_clean _ Hnd) as [Hnd' Hstart].
  destruct (dropTrailingDash_clean _ Hnd') as [Hnd'' Hend].
  repeat split.
  - apply dropTrailingDash_chars, dropLeadingDash_chars, collapseDashes_chars,
      replaceNonAlnum_chars.
  - rewrite includes_double_dash, Hnd''. reflexivity.
  - destruct (startsWith (dropTrailingDash _) (js "-")) eqn:E; [|reflexivity].
    apply dropTrailingDash_startsWith in E. congruence.
  - exact Hend.
Qed.

Lemma split_parts_no_sep sep s :
  Forall (fun part => includes part [sep] = false) (split sep s).
Proof.
  induction s as [|c s IH]; [repeat constructor|].
  cbn [split]. destruct ((c =? sep)%N) eqn:E; [constructor; [reflexivity|exact IH]|].
  destruct (split sep s) as [|p ps].
  - constructor; [|constructor]. rewrite includes_char_cons, E. reflexivity.
  - apply Forall_cons in IH. destruct IH as [Hp Hps].
    constructor; [|exact Hps]. rewrite includes_char_cons, E, Hp. reflexivity.
Qed.

Lemma lastPart_no_slash address : includes (lastPart address) (js "/") = false.
Proof.
  unfold lastPart. pose proof (split_parts_no_sep (ch "/") address) as H.
  change (js "/") with [ch "/"].
  induction H as [|p ps Hp _ IH]; [reflexivity|].
  destruct ps as [|p' ps]; [exact Hp|exact IH].
Qed.

Lemma isAlnumOrDash_not_slash c : isAlnumOrDash c = true -> (c =? ch "/")%N = false.
Proof.
  unfold isAlnumOrDash, isAlnum. change (ch "/") with 47%N. change (ch "-") with 45%N.
  intros H. apply N.eqb_neq. intros ->. vm_compute in H. discriminate H.
Qed.

Lemma allChars_no_slash s :
  allChars isAlnumOrDash s = true -> includes s (js "/") = false.
Proof.
  change (js "/") with [ch "/"].
  induction s as [|c s IH]; [reflexivity|].
  cbn [allChars]. intros H. apply andb_true_iff in H. destruct H as [Hc Hs].
  rewrite includes_char_cons, (isAlnumOrDash_not_slash _ Hc), (IH Hs). reflexivity.
Qed.

(** X20: the name of the file written for a result never contains a
    slash, so the file lands in the output directory itself; and when the
    last segment of the result's URL is neither empty nor "toplists", the
    file is named after that segment and the summary lists it under the same
    name. *)
Theorem file_name_is_flat (result : ToplistResult) :
  includes (fileNameOf result) (js "/") = false
  /\ (nonEmpty (lastPart (url result)) = true ->
      lastPart (url result) <> (js "toplists") ->
      fileNameOf result = lastPart (url result)
      /\ sf_filename (summaryFileOf result) = fileNameOf result ++ js ".json").
Proof.
  split.
  - unfold fileNameOf.
    destruct (nonEmpty (lastPart (url result))
              && negb (strictEq (lastPart (url result)) (js "toplists"))).
    + apply lastPart_no_slash.
    + apply allChars_no_slash. apply (sanitized_name_chars (listName result)).
  - intros Hne Hnot. unfold fileNameOf, summaryFileOf. cbn [sf_filename].
    apply strictEq_neq in Hnot. rewrite Hne, Hnot. split; reflexivity.
Qed.

(** ** The summary *)

Lemma totalRows_sum allResults :
  forall sum,
    List.fold_left (fun sum r => (sum + rowCount r)%nat) allResults sum
    = (sum + list_sum (List.map rowCount allResults))%nat.
Proof.
  induction allResults as [|r rest IH]; intros sum; simpl; [lia|].
  rewrite IH. lia.
Qed.

Lemma listResult_rowCount site link r :
  listResult site link = Some r ->
  rowCount r = List.length (data r) /\ (0 < rowCount r)%nat.
Proof.
  unfold listResult.
  destruct (crawlToplistPage site (href link) (text link)) as [result|e] eqn:E;
    [|discriminate].
  intros ->. destruct (crawlToplistPage_invariants _ _ _ _ E) as (_ & _ & _ & Hc & Hpos & _).
  split; assumption.
Qed.

Lemma crawlENRToplists_results site homeBodyWait allResults :
  crawlENRToplists site homeBodyWait = Ok allResults ->
  exists toplistLinks, allResults = omap (listResult site) toplistLinks.
Proof.
  unfold crawlENRToplists.
  destruct (site (js "https://www.enr.com/")) as [home|e]; cbn [tryCatch bindExc];
    [|discriminate].
  destruct homeBodyWait as [[]|e]; cbn [tryCatch bindExc]; [|discriminate].
  destruct (waitForCloudflareChallenge home) as [[]|e]; cbn [tryCatch bindExc negb];
    [|discriminate|discriminate].
  destruct (site (js "https://www.enr.com/toplists")) as [index|e]; cbn [tryCatch bindExc];
    [|discriminate].
  destruct (waitForCloudflareChallenge index) as [b|e]; cbn [tryCatch bindExc];
    [|discriminate].
  destruct (getToplistLinks index) as [toplistLinks|e]; cbn [tryCatch bindExc];
    [|discriminate].
  rewrite crawlToplistLinks_omap. cbn [tryCatch bindExc]. intros [= <-].
  exists toplistLinks. reflexivity.
Qed.

(** X21: for the results of a crawl, the summary's [totalLists] is their
    number and its [totalRows] is the number of rows they hold together;
    every list counted holds at least one row, so [totalLists <= totalRows];
    the summary lists the results in their order. *)
Theorem summary_totals_match_results
    (site : Site) (homeBodyWait : Exc unit) (allResults : list ToplistResult) :
  crawlENRToplists site homeBodyWait = Ok allResults ->
  totalLists (summaryDataOf allResults) = List.length allResults
  /\ totalRows (summaryDataOf allResults)
     = List.length (List.concat (List.map data allResults))
  /\ (totalLists (summaryDataOf allResults) <= totalRows (summaryDataOf allResults))%nat
  /\ List.map sf_url (files (summaryDataOf allResults)) = List.map url allResults.
Proof.
  intros H. destruct (crawlENRToplists_results _ _ _ H) as [links ->]. clear H.
  assert (Hrows : forall r, In r (omap (listResult site) links) ->
                    rowCount r = List.length (data r) /\ (0 < rowCount r)%nat).
  { intros r Hin. apply list_elem_of_In, list_elem_of_omap in Hin.
    destruct Hin as (link & _ & Hr). exact (listResult_rowCount _ _ _ Hr). }
  remember (omap (listResult site) links) as results eqn:Hres. clear Hres.
  unfold summaryDataOf. cbn [totalLists totalRows files].
  rewrite totalRows_sum, Nat.add_0_l.
  assert (Hsum : list_sum (List.map rowCount results)
                 = List.length (List.concat (List.map data results))
                 /\ (List.length results <= list_sum (List.map rowCount results))%nat).
  { induction results as [|r rest IH]; [split; reflexivity|].
    destruct (Hrows r (or_introl eq_refl)) as [Hc Hpos].
    destruct IH as [IH1 IH2]; [intros r' Hin; apply Hrows; right; exact Hin|].
    simpl. rewrite List.length_app. split; lia. }
  destruct Hsum as [Hsum Hle].
  split; [reflexivity|]. split; [exact Hsum|]. split; [exact Hle|].
  rewrite List.map_map. apply List.map_ext. reflexivity.
Qed.


End Crawler.

(** * Sample runs

    The crawler run on the sample inputs, whose text is ASCII apart from the
    no-break spaces of [nbspTable]: there the runtime's case mappings are
    [asciiUpper] and [asciiLower]. *)

(** C1, as the specification words it, fails: when the first inspection
    of the gate rejects, [waitForCloudflareChallenge] does not answer
    [true]. *)
Lemma C1_first_check_failure_not_clear :
  challengeCheck brokenCheckPage = Throw "Execution context was destroyed"
  /\ waitForCloudflareChallenge asciiLower brokenCheckPage <> Ok true.
Proof. split; [reflexivity | discriminate]. Qed.

Lemma C1_gate_evaluation_failures_witness :
  waitForCloudflareChallenge asciiLower brokenCheckPage = Ok false
  /\ pollChallenge asciiLower (challengePolls flakyPollPage) 0 60
     = pollChallenge asciiLower (challengePolls flakyPollPage) 1 59
  /\ waitForCloudflareChallenge asciiLower flakyPollPage = Ok true.
Proof.
  destruct (C1_gate_evaluation_failures asciiLower brokenCheckPage)
    as (Hfirst & Hpoll & _ & _).
  split; [|split].
  - apply (Hfirst "Execution context was destroyed"). reflexivity.
  - apply (Hpoll _ 0%nat 59%nat "Execution context was destroyed"). reflexivity.
  - reflexivity.
Defined.

(** C2, as the specification words it, fails: the wait for a table times
    out and the call still returns rows, with [tablesFound = 1]; and when
    the inspection rejects, what comes back is [null], not an extraction
    object with no rows. *)
Lemma C2_wait_timeout_still_extracts :
  (tableWait lateTablePage = Throw "Waiting for selector `table` failed: 10000ms exceeded"
   /\ exists d, extractTableData asciiUpper lateTablePage = Ok (Some d)
                /\ List.length (pd_data d) = 2%nat
                /\ tablesFound d = 1%nat)
  /\ (tablesDoc brokenTablesPage = Throw "Execution context was destroyed"
      /\ extractTableData asciiUpper brokenTablesPage
         <> Ok (Some {| pd_headers := canonicalHeaders; pd_data := []; tablesFound := 0 |})).
Proof.
  split; split; try reflexivity.
  - eexists. split; [vm_compute; reflexivity|]. split; reflexivity.
  - discriminate.
Qed.

Lemma C2_extraction_failure_is_null_witness :
  extractTableData asciiUpper brokenTablesPage = Ok None
  /\ extractTableData asciiUpper onlyPaginationPage = Ok None.
Proof.
  split.
  - destruct (C2_extraction_failure_is_null asciiUpper brokenTablesPage)
      as (_ & Hthrow & _).
    apply (Hthrow "Execution context was destroyed"). reflexivity.
  - destruct (C2_extraction_failure_is_null asciiUpper onlyPaginationPage)
      as (_ & _ & Hpag & _).
    apply (Hpag [paginationTable]); [reflexivity|].
    constructor; [reflexivity|constructor].
Defined.

(** C3, as the specification words it, fails: the first selector yields
    an anchor, yet the links returned come from the third selector. *)
Lemma C3_first_yielding_strategy_not_final :
  List.hd_error selectors = Some "div.linkArrow a"
  /\ List.length (mixedIndex "div.linkArrow a") = 1%nat
  /\ toplistLinksOf mixedIndex
     = [ {| href := js "https://www.enr.com/toplists/2025-Top-500-Design-Firms";
            text := js "Top 500 Design Firms" |};
         {| href := js "https://www.enr.com/toplists/2025-Top-400-Contractors";
            text := js "Top 400 Contractors" |} ]
  /\ ~ In (js "https://www.enr.com/toplists/2025-Top-500-Design-Firms")
         (List.map a_href (mixedIndex "div.linkArrow a")).
Proof.
  split; [reflexivity|]. split; [reflexivity|]. split; [vm_compute; reflexivity|].
  simpl. intros [H|[]]. vm_compute in H. discriminate H.
Qed.

Lemma C3_first_qualifying_strategy_wins_witness :
  toplistLinksOf mixedIndex
  = removeDuplicates ∅ []
      (qualifyingLinks (mixedIndex ("a[href*=" +:+ dq +:+ "toplists" +:+ dq +:+ "]"))).
Proof.
  apply (proj1 (C3_first_qualifying_strategy_wins mixedIndex)
           ["div.linkArrow a"; ".linkArrow a"]
           ("a[href*=" +:+ dq +:+ "toplists" +:+ dq +:+ "]")
           ["a[href*=" +:+ dq +:+ "rankings" +:+ dq +:+ "]";
            "a.link-arrow"; ".link-arrow a";
            "div[class*=" +:+ dq +:+ "arrow" +:+ dq +:+ "] a"]).
  - reflexivity.
  - repeat constructor.
  - vm_compute. discriminate.
Defined.

Lemma C4_page_count_witness :
  (exists r,
      crawlToplistPage asciiUpper asciiLower threePageSite
        (js "https://www.enr.com/toplists/2025-Top-500-Design-Firms")
        (js "Top 500 Design Firms")
      = Ok (Some r)
      /\ paginatedPages r = 3%nat)
  /\ (exists r,
         crawlToplistPage asciiUpper asciiLower singlePageSite
           (js "https://www.enr.com/toplists/2025-Top-100") (js "Top 100") = Ok (Some r)
         /\ paginatedPages r = 1%nat).
Proof.
  split.
  - destruct (crawlToplistPage asciiUpper asciiLower threePageSite
                (js "https://www.enr.com/toplists/2025-Top-500-Design-Firms")
                (js "Top 500 Design Firms")) as [[r|]|e] eqn:E;
      [|vm_compute in E; discriminate E|vm_compute in E; discriminate E].
    exists r. split; [reflexivity|].
    destruct (C4_page_count _ _ _ _ _ _ E) as (page & links & Hp & Hl & Hn & _).
    change (Ok mainListPage = Ok page) in Hp. injection Hp as <-.
    vm_compute in Hl. injection Hl as <-. exact Hn.
  - destruct (crawlToplistPage asciiUpper asciiLower singlePageSite
                (js "https://www.enr.com/toplists/2025-Top-100") (js "Top 100"))
      as [[r|]|e] eqn:E;
      [|vm_compute in E; discriminate E|vm_compute in E; discriminate E].
    exists r. split; [reflexivity|].
    destruct (C4_page_count _ _ _ _ _ _ E) as (page & links & Hp & Hl & _ & Hone).
    change (Ok lateTablePage = Ok page) in Hp. injection Hp as <-.
    apply Hone. vm_compute in Hl. injection Hl as <-. reflexivity.
Defined.

Lemma C5_firm_column_exact_match_witness :
  scanTable asciiUpper [] noFirmTable 0 = []
  /\ exists (k : nat) h,
       List.map headerOf (t_headerCells nbspTable) !! k = Some h
       /\ firmIndex (resolveColumns asciiUpper (List.map headerOf (t_headerCells nbspTable)))
          = Z.of_nat k
       /\ (normalize asciiUpper h = js "FIRM" \/ normalize asciiUpper h = js "FIRMS").
Proof.
  split.
  - apply (proj2 (C5_firm_column_exact_match asciiUpper noFirmTable)).
    intros h Hin. simpl in Hin.
    destruct Hin as [<-|[<-|[<-|[]]]]; split; vm_compute; discriminate.
  - apply (proj1 (C5_firm_column_exact_match asciiUpper nbspTable)).
    vm_compute. discriminate.
Defined.

Lemma C6_firm_split_witness :
  parseFirm (js "AECOM, Dallas, Texas") = (js "AECOM", js "Dallas, Texas")
  /\ parseFirm (js "AECOM") = (js "AECOM", [])
  /\ exists d row,
       extractTableData asciiUpper nbspPage = Ok (Some d)
       /\ In row (pd_data d)
       /\ row !! "Company Name" = Some (js "AECOM")
       /\ row !! "Location" = Some (js "Dallas").
Proof.
  split; [|split].
  - exact (proj1 (C6_firm_split asciiUpper (js "AECOM, Dallas, Texas")) eq_refl).
  - exact (proj1 (proj2 (C6_firm_split asciiUpper (js "AECOM"))) eq_refl).
  - assert (Hfrom :
      extractedFrom asciiUpper nbspTable
        [js "1" ++ [160%N]; js "AECOM," ++ [160%N] ++ js "Dallas"]
        (js "AECOM," ++ [160%N] ++ js "Dallas")
        (buildRow (resolveColumns asciiUpper (List.map headerOf (t_headerCells nbspTable)))
                  [js "1" ++ [160%N]; js "AECOM," ++ [160%N] ++ js "Dallas"]
                  (js "AECOM," ++ [160%N] ++ js "Dallas"))).
    { split; [discriminate|]. split; [left; reflexivity|]. split; reflexivity. }
    destruct (proj2 (proj2 (proj2 (C6_firm_split asciiUpper [])))
                nbspPage [nbspTable] nbspTable _ _ _ eq_refl (or_introl eq_refl) Hfrom)
      as ((d & Hd & Hin) & Hname & Hloc).
    exists d. eexists. split; [exact Hd|]. split; [exact Hin|].
    split; [exact Hname|exact Hloc].
Defined.

(** C7, as the specification words it, fails: the first header matches
    the rank-2024 pattern (it contains "RANK" and "2024"), yet the column
    used for rank 2024 is the second one. *)
Lemma C7_first_pattern_match_not_used :
  duplicateRankHeaders !! 0%nat = Some (js "RANK 2025 (2024)")
  /\ matchesRank2024 asciiUpper (js "RANK 2025 (2024)") = true
  /\ rank2024Index (resolveColumns asciiUpper duplicateRankHeaders) = 1%Z.
Proof. repeat split. Qed.

Lemma C7_rank2024_first_match_witness :
  rank2024Index (resolveColumns asciiUpper duplicateRankHeaders) = Z.of_nat 1
  /\ resolveColumns asciiUpper
       [js "rank 2025(2024)"; js " RANK2024"; js "Rank  2023 "; js "rank 2025"; js "f i r m s"]
     = resolveColumns asciiUpper duplicateRankHeaders.
Proof.
  split.
  - apply (proj1 (C7_rank2024_first_match asciiUpper duplicateRankHeaders)
             1%nat (js "Rank 2024")).
    + reflexivity.
    + reflexivity.
    + intros j h' Hlt Hj. destruct j as [|j]; [|lia].
      injection Hj as <-. reflexivity.
  - apply (proj2 (proj2 (proj2 (C7_rank2024_first_match asciiUpper duplicateRankHeaders)))).
    reflexivity.
Defined.

Lemma C8_links_deduplicated_in_order_witness :
  NoDup (List.map href (toplistLinksOf mixedIndex))
  /\ toplistLinksOf mixedIndex = firstOccurrences (collectLinks mixedIndex).
Proof.
  split.
  - exact (proj1 (C8_links_deduplicated_in_order mixedIndex)).
  - exact (proj1 (proj2 (C8_links_deduplicated_in_order mixedIndex))).
Defined.

Lemma C9_row_keys_witness :
  exists d,
    extractTableData asciiUpper duplicateRankPage = Ok (Some d)
    /\ Forall (fun row : gmap string jsstring => dom row ⊆ canonicalKeys
                                /\ is_Some (row !! "Company Name")
                                /\ row !! "RANK 2024" = Some (js "8"))
              (pd_data d).
Proof.
  destruct (extractTableData asciiUpper duplicateRankPage) as [[d|]|e] eqn:E;
    [|vm_compute in E; discriminate E|vm_compute in E; discriminate E].
  exists d. split; [reflexivity|].
  apply List.Forall_forall. intros row Hin.
  destruct (proj1 (C9_row_keys asciiUpper duplicateRankPage
                     [paginationTable; duplicateRankTable] eq_refl) d row E Hin)
    as (Hdom & Hname & _ & _).
  split; [exact Hdom|]. split; [exact Hname|].
  vm_compute in E. injection E as <-.
  destruct Hin as [<-|[]]. vm_compute. reflexivity.
Defined.

Lemma C10_rank2025_last_match_witness :
  rank2025Index
    (resolveColumns asciiUpper (List.map headerOf (t_headerCells duplicateRankTable)))
  = Z.of_nat 3
  /\ exists d row,
       extractTableData asciiUpper duplicateRankPage = Ok (Some d)
       /\ In row (pd_data d)
       /\ row !! "RANK 2025" = Some (js "4").
Proof.
  assert (Hlater : forall (j : nat) h',
             (3 < j)%nat ->
             List.map headerOf (t_headerCells duplicateRankTable) !! j = Some h' ->
             matchesRank2025 asciiUpper h' = false).
  { intros j h' Hlt Hj.
    destruct j as [|[|[|[|[|j]]]]]; try lia; [|discriminate].
    injection Hj as <-. reflexivity. }
  destruct (C10_rank2025_last_match asciiUpper duplicateRankPage
              [paginationTable; duplicateRankTable] duplicateRankTable 3 (js "Rank  2025")
              eq_refl (or_intror (or_introl eq_refl)) eq_refl eq_refl Hlater)
    as [Hix Hrows].
  split; [exact Hix|].
  assert (Hfrom :
    extractedFrom asciiUpper duplicateRankTable
      [js "9"; js "8"; js "7"; js " 4 "; js "AECOM, Dallas, Texas"]
      (js "AECOM, Dallas, Texas")
      (buildRow
         (resolveColumns asciiUpper (List.map headerOf (t_headerCells duplicateRankTable)))
         [js "9"; js "8"; js "7"; js " 4 "; js "AECOM, Dallas, Texas"]
         (js "AECOM, Dallas, Texas"))).
  { split; [vm_compute; discriminate|]. split; [left; reflexivity|]. split; reflexivity. }
  destruct (Hrows _ _ _ Hfrom) as ((d & Hd & Hin) & Hrank).
  exists d. eexists. split; [exact Hd|]. split; [exact Hin|]. exact Hrank.
Defined.

Lemma gate_clears_iff_some_poll_clear_witness :
  waitForCloudflareChallenge asciiLower slowChallengePage = Ok true.
Proof.
  apply (proj1 (gate_clears_iff_some_poll_clear asciiLower slowChallengePage
                  challengeSnapshot eq_refl eq_refl)).
  exists 3%nat. split; [lia|reflexivity].
Defined.

Lemma extraction_is_concatenation_witness :
  exists d, extractTableData asciiUpper busyPage = Ok (Some d)
            /\ List.length (pd_data d) = 3%nat /\ tablesFound d = 2%nat.
Proof.
  eexists. split; [|split].
  - exact (extraction_is_concatenation asciiUpper busyPage busyDocument eq_refl).
  - reflexivity.
  - reflexivity.
Defined.

Lemma extraction_bounds_witness :
  exists d, extractTableData asciiUpper busyPage = Ok (Some d)
            /\ (List.length (pd_data d) <= 6)%nat
            /\ (tablesFound d <= 3)%nat
            /\ (tablesFound d <= List.length (pd_data d))%nat.
Proof.
  destruct (extractTableData asciiUpper busyPage) as [[d|]|e] eqn:E;
    [|vm_compute in E; discriminate E|vm_compute in E; discriminate E].
  exists d. split; [reflexivity|].
  exact (extraction_bounds asciiUpper busyPage busyDocument d eq_refl E).
Defined.

Lemma firm_column_last_match_witness :
  firmIndex (resolveColumns asciiUpper twoFirmHeaders) = Z.of_nat 2.
Proof.
  apply (firm_column_last_match asciiUpper twoFirmHeaders 2 (js "F I R M S")
           eq_refl eq_refl).
  intros j h' Hlt Hj.
  destruct j as [|[|[|[|[|j]]]]]; try lia; [| |discriminate];
    injection Hj as <-; reflexivity.
Defined.

Lemma resolved_columns_distinct_witness :
  rank2025Index (resolveColumns asciiUpper duplicateRankHeaders)
  <> rank2024Index (resolveColumns asciiUpper duplicateRankHeaders).
Proof.
  apply (proj1 (resolved_columns_distinct asciiUpper duplicateRankHeaders)).
  vm_compute. discriminate.
Defined.

Lemma company_name_has_no_comma_witness :
  includes (js "Bechtel") (js ",") = false.
Proof.
  apply (company_name_has_no_comma noIndices [js "Bechtel , Reston, Va."]
           (js "Bechtel , Reston, Va.")).
  reflexivity.
Defined.

Lemma pagination_links_in_document_order_witness :
  exists links, getPaginationLinks mainListPage = Ok links
                /\ Forall (fun link => includes (href link) (js "toplists") = true) links.
Proof.
  eexists. split; [reflexivity|].
  eapply (proj1 (pagination_links_in_document_order mainListPage _ eq_refl)).
Defined.

Lemma dedup_fixes_distinct_links_witness :
  removeDuplicates ∅ [] (qualifyingLinks (plainIndex "a")) <> qualifyingLinks (plainIndex "a")
  /\ removeDuplicates ∅ [] (toplistLinksOf mixedIndex) = toplistLinksOf mixedIndex.
Proof.
  split; [vm_compute; discriminate|].
  apply (proj1 (dedup_fixes_distinct_links (toplistLinksOf mixedIndex))).
  unfold toplistLinksOf. apply removeDuplicates_NoDup; [constructor|].
  intros v Hv. inversion Hv.
Defined.

Lemma fallback_links_do_not_end_in_toplists_witness :
  toplistLinksOf plainIndex
  = [ {| href := js "https://www.enr.com/toplists/2025-Top-400-Contractors";
         text := js "Top 400" |} ].
Proof.
  assert (Hnone : Forall (fun s => qualifyingLinks (plainIndex s) = []) selectors).
  { repeat constructor. }
  rewrite (proj1 (fallback_links_do_not_end_in_toplists plainIndex Hnone)).
  vm_compute. reflexivity.
Defined.

Lemma toplist_rows_are_page_rows_in_order_witness :
  exists r,
    crawlToplistPage asciiUpper asciiLower threePageSite
      (js "https://www.enr.com/toplists/2025-Top-500-Design-Firms") (js "Top 500")
    = Ok (Some r)
    /\ rowCount r = 4%nat.
Proof.
  eexists. split.
  - exact (proj1 (toplist_rows_are_page_rows_in_order asciiUpper asciiLower threePageSite
                    (js "https://www.enr.com/toplists/2025-Top-500-Design-Firms")
                    (js "Top 500") mainListPage _ eq_refl eq_refl)).
  - reflexivity.
Defined.

Lemma toplist_crawl_never_rejects_witness :
  crawlToplistPage asciiUpper asciiLower brokenPaginationSite
    (js "https://www.enr.com/toplists/x") (js "x") = Ok None
  /\ crawlToplistPage asciiUpper asciiLower threePageSite
       (js "https://www.enr.com/toplists/unknown") (js "x") = Ok None.
Proof.
  split.
  - eapply (proj2 (proj2 (toplist_crawl_never_rejects asciiUpper asciiLower
                            brokenPaginationSite
                            (js "https://www.enr.com/toplists/x") (js "x")))).
    + reflexivity.
    + reflexivity.
  - apply (proj1 (proj2 (toplist_crawl_never_rejects asciiUpper asciiLower threePageSite
                           (js "https://www.enr.com/toplists/unknown") (js "x")))
             "net::ERR_CONNECTION_TIMED_OUT").
    reflexivity.
Defined.

Lemma toplist_result_invariants_witness :
  exists r,
    crawlToplistPage asciiUpper asciiLower singlePageSite
      (js "https://www.enr.com/toplists/2025-Top-100") (js "Top 100")
    = Ok (Some r)
    /\ url r = js "https://www.enr.com/toplists/2025-Top-100"
    /\ rowCount r = List.length (data r).
Proof.
  destruct (crawlToplistPage asciiUpper asciiLower singlePageSite
              (js "https://www.enr.com/toplists/2025-Top-100") (js "Top 100"))
    as [[r|]|e] eqn:E;
    [|vm_compute in E; discriminate E|vm_compute in E; discriminate E].
  exists r. split; [reflexivity|].
  destruct (toplist_result_invariants _ _ _ _ _ _ E) as (Hu & _ & _ & Hc & _).
  split; [exact Hu|exact Hc].
Defined.

Lemma crawl_results_in_discovery_order_witness :
  exists r,
    crawlENRToplists asciiUpper asciiLower enrSite (Ok tt) = Ok [r]
    /\ url r = js "https://www.enr.com/toplists/2025-Top-500-Design-Firms"
    /\ listName r = js "Top 500 Design Firms".
Proof.
  rewrite (crawl_results_in_discovery_order asciiUpper asciiLower enrSite (Ok tt)
             indexPage indexPage mixedIndex eq_refl eq_refl eq_refl eq_refl eq_refl).
  eexists. split; [vm_compute; reflexivity|]. split; reflexivity.
Defined.

Lemma crawl_rejects_only_before_the_lists_witness :
  crawlENRToplists asciiUpper asciiLower blockedSite (Ok tt)
  = Throw "Failed to pass Cloudflare challenge"
  /\ exists home, blockedSite (js "https://www.enr.com/") = Ok home
                  /\ waitForCloudflareChallenge asciiLower home = Ok false.
Proof.
  assert (H : crawlENRToplists asciiUpper asciiLower blockedSite (Ok tt)
              = Throw "Failed to pass Cloudflare challenge") by (vm_compute; reflexivity).
  split; [exact H|].
  destruct (crawl_rejects_only_before_the_lists _ _ _ _ _ H)
    as [Hc | [Hc | [(home & Hh & Hg & _) | [Hc | (index & Hi & Hc)]]]].
  - discriminate Hc.
  - discriminate Hc.
  - exists home. split; assumption.
  - discriminate Hc.
  - injection Hi as <-. discriminate Hc.
Defined.

Lemma file_name_is_flat_witness :
  fileNameOf designFirmsResult = js "2025-Top-500-Design-Firms"
  /\ sf_filename (summaryFileOf designFirmsResult)
     = fileNameOf designFirmsResult ++ js ".json".
Proof.
  apply (proj2 (file_name_is_flat designFirmsResult)).
  - reflexivity.
  - vm_compute. discriminate.
Defined.

Lemma summary_totals_match_results_witness :
  exists allResults,
    crawlENRToplists asciiUpper asciiLower enrSite (Ok tt) = Ok allResults
    /\ totalLists (summaryDataOf allResults) = 1%nat
    /\ totalRows (summaryDataOf allResults)
       = List.length (List.concat (List.map data allResults)).
Proof.
  destruct (crawlENRToplists asciiUpper asciiLower enrSite (Ok tt))
    as [allResults|e] eqn:E; [|vm_compute in E; discriminate E].
  exists allResults. split; [reflexivity|].
  destruct (summary_totals_match_results _ _ _ _ _ E) as (H1 & H2 & _).
  split; [|exact H2]. rewrite H1. vm_compute in E. injection E as <-. reflexivity.
Defined.
